(** * AmpliconPipeline: bin/helper_functions.py

    A shallow embedding of the helper functions that organise the paired-end
    read files of a MiSeq run for QIIME 2: identifier validation, sample
    discovery, read pairing, the sample dictionary, symlink creation, the
    dummy-barcode renaming and the project set-up.

    Python strings are modelled as [string] (one [ascii] per character, so
    file names are taken to be ASCII), Python exceptions as an error result,
    and side effects (logging, the file system, the external process) by
    explicit state passing. *)

From stdpp Require Import base option list strings gmap.
From Stdlib Require Import Ascii String.

Set Warnings "-register-all".

Local Open Scope string_scope.

(** ** Exceptions and results *)

Inductive exn : Type :=
  | IndexError
  | TypeError
  | FileExistsError
  | FileNotFoundError
  | NotADirectoryError
  | UnicodeDecodeError
  | OtherError (name : string).

Inductive result (A : Type) : Type :=
  | Ok (a : A)
  | Raise (e : exn).
Arguments Ok {A} a.
Arguments Raise {A} e.

(** ** Python [str] operations used by the module *)

Module Str.

(** [s[:n]] *)
Fixpoint take (n : nat) (s : string) : string :=
  match n, s with
  | S n', String c s' => String c (take n' s')
  | _, _ => ""
  end.

(** [s[n:]] *)
Fixpoint drop (n : nat) (s : string) : string :=
  match n, s with
  | S n', String _ s' => drop n' s'
  | _, _ => s
  end.

(** [s.split(sep)] for a one-character separator: every occurrence splits,
    empty components are kept, and the result is never empty. *)
Fixpoint split (sep : ascii) (s : string) : list string :=
  match s with
  | "" => [""]
  | String c s' =>
      if Ascii.eqb c sep then "" :: split sep s'
      else match split sep s' with
           | h :: t => String c h :: t
           | [] => [String c ""]
           end
  end.

(** [sep.join(l)] *)
Fixpoint join (sep : string) (l : list string) : string :=
  match l with
  | [] => ""
  | [x] => x
  | x :: l' => x +:+ sep +:+ join sep l'
  end.

Definition is_digit_char (c : ascii) : bool :=
  let n := nat_of_ascii c in (48 <=? n)%nat && (n <=? 57)%nat.

Fixpoint all_digits (s : string) : bool :=
  match s with
  | "" => true
  | String c s' => is_digit_char c && all_digits s'
  end.

(** [s.isdigit()]: at least one character and all of them digits. *)
Definition isdigit (s : string) : bool :=
  match s with
  | "" => false
  | _ => all_digits s
  end.

(** [s.startswith(p)] *)
Fixpoint startswith (p s : string) : bool :=
  match p, s with
  | "", _ => true
  | String a p', String b s' => Ascii.eqb a b && startswith p' s'
  | _, _ => false
  end.

(** [s.endswith(p)] *)
Definition endswith (p s : string) : bool :=
  (String.length p <=? String.length s)%nat
  && String.eqb (drop (String.length s - String.length p) s) p.

(** [sub in s] *)
Fixpoint contains (sub s : string) : bool :=
  startswith sub s ||
  match s with
  | "" => false
  | String _ s' => contains sub s'
  end.

(** [s.replace(old, new)] for a non-empty [old]: all non-overlapping
    occurrences, scanning from the left. [skip] counts the characters of
    the occurrence just replaced that are still to be passed over. *)
Fixpoint replace_from (old new : string) (skip : nat) (s : string) : string :=
  match s with
  | "" => ""
  | String c s' =>
      match skip with
      | S k => replace_from old new k s'
      | O =>
          if startswith old s
          then new +:+ replace_from old new (String.length old - 1) s'
          else String c (replace_from old new 0 s')
      end
  end.

Definition replace (old new s : string) : string := replace_from old new 0 s.

(** [l[i]] on a list *)
Definition index {A} (l : list A) (i : nat) : result A :=
  match l !! i with
  | Some x => Ok x
  | None => Raise IndexError
  end.

End Str.

(** ** [os.path] (posixpath) *)

Module OsPath.

Definition sep : ascii := "/"%char.

(** [os.path.basename(p)]: what follows the last slash. *)
Definition basename (p : string) : string :=
  List.last (Str.split sep p) "".

(** [os.path.dirname(p)]: what precedes the last slash, with trailing
    slashes removed unless it consists of slashes only. *)
Fixpoint all_slashes (s : string) : bool :=
  match s with
  | "" => true
  | String c s' => Ascii.eqb c sep && all_slashes s'
  end.

Fixpoint rstrip_slashes (s : string) : string :=
  match s with
  | "" => ""
  | String c s' => if all_slashes s then "" else String c (rstrip_slashes s')
  end.

Definition head_part (p : string) : string :=
  Str.take (String.length p - String.length (basename p)) p.

Definition dirname (p : string) : string :=
  let h := head_part p in
  if all_slashes h then h else rstrip_slashes h.

Definition isabs (p : string) : bool := Str.startswith "/" p.

(** [os.path.join(a, b)] *)
Definition join (a b : string) : string :=
  if isabs b then b
  else if String.eqb a "" || Str.endswith "/" a then a +:+ b
  else a +:+ "/" +:+ b.

(** The component loop of [os.path.normpath]. *)
Fixpoint norm_comps (initial_slashes : bool) (new_comps : list string)
    (comps : list string) : list string :=
  match comps with
  | [] => new_comps
  | comp :: rest =>
      if String.eqb comp "" || String.eqb comp "." then
        norm_comps initial_slashes new_comps rest
      else if negb (String.eqb comp "..")
              || (negb initial_slashes && bool_decide (new_comps = []))
              || bool_decide (List.last new_comps "" = ".." ∧ new_comps ≠ [])
      then norm_comps initial_slashes (new_comps ++ [comp])%list rest
      else norm_comps initial_slashes (List.removelast new_comps) rest
  end.

(** [os.path.normpath(p)] *)
Definition normpath (p : string) : string :=
  if String.eqb p "" then "."
  else
    let initial := Str.startswith "/" p in
    let lead :=
      if initial then
        if Str.startswith "//" p && negb (Str.startswith "///" p)
        then "//" else "/"
      else "" in
    let path := lead +:+ Str.join "/" (norm_comps initial [] (Str.split sep p)) in
    if String.eqb path "" then "." else path.

(** [os.path.abspath(p)] with the current directory [cwd]. *)
Definition abspath_in (cwd p : string) : string :=
  normpath (if isabs p then p else join cwd p).

End OsPath.

(** ** Python values held by the sample dictionary *)

Inductive pyval : Type :=
  | PyNone
  | PyStr (s : string)
  | PyList (l : list pyval).

(** [value[i]] *)
Definition subscript (value : pyval) (i : nat) : result pyval :=
  match value with
  | PyNone => Raise TypeError
  | PyStr s =>
      match String.get i s with
      | Some c => Ok (PyStr (String c ""))
      | None => Raise IndexError
      end
  | PyList l => Str.index l i
  end.

(** A [dict] with [str] keys: insertion-ordered, one entry per key. *)
Definition dict : Type := list (string * pyval).

Fixpoint dict_set (k : string) (v : pyval) (d : dict) : dict :=
  match d with
  | [] => [(k, v)]
  | (k', v') :: d' =>
      if String.eqb k' k then (k', v) :: d' else (k', v') :: dict_set k v d'
  end.

Fixpoint dict_get (k : string) (d : dict) : option pyval :=
  match d with
  | [] => None
  | (k', v') :: d' => if String.eqb k' k then Some v' else dict_get k d'
  end.

(** ** Logging *)

Inductive level : Type := DEBUG | INFO | WARNING | ERROR.

Record log_record : Type := LogRecord { lvl : level; msg : string }.

(** ** The platform: operating system and interpreter services

    The primitives the module calls but does not define. [world] is the state
    outside the process (file system, external programs). Each primitive
    returns a result together with the world it leaves behind, also when it
    raises. *)

Class Platform : Type := {
  world : Type;
  (** [os.getcwd()]; the working directory of the process is taken to
      exist *)
  os_getcwd : world → string;
  (** [glob.glob(pattern)] *)
  glob_glob : string → world → list string;
  (** [os.mkdir(path)] *)
  os_mkdir : string → world → result unit * world;
  (** [os.symlink(src, dst)] *)
  os_symlink : string → string → world → result unit * world;
  (** [os.rename(src, dst)] *)
  os_rename : string → string → world → result unit * world;
  (** [subprocess.Popen(cmd, shell=True, stdout=PIPE, stderr=PIPE)] followed
      by [communicate()]: the bytes of the two streams *)
  popen_communicate : string → world → result (string * string) * world;
  (** [str(d)] for a dictionary, as [format] renders it *)
  dict_str : dict → string;
  (** [list(set(l))]: the members of [l], each once. The order is the one
      the hash table of the interpreter gives; it depends on the hash seed
      of the process and on the order of insertion, so nothing but the two
      laws below is known of it. *)
  list_of_set : list string → list string;
  list_of_set_NoDup : ∀ l, NoDup (list_of_set l);
  list_of_set_elem_of : ∀ l x, x ∈ list_of_set l ↔ x ∈ l
}.

(** ** Computations: state passing with exceptions *)

Section Helpers.

Context `{Platform}.

Record state : Type := State { os_world : world; log : list log_record }.

Definition M (A : Type) : Type := state → result A * state.

Definition ret {A} (a : A) : M A := λ st, (Ok a, st).

Definition raise {A} (e : exn) : M A := λ st, (Raise e, st).

Definition bind {A B} (m : M A) (k : A → M B) : M B :=
  λ st, match m st with
        | (Ok a, st') => k a st'
        | (Raise e, st') => (Raise e, st')
        end.

(** A pure computation that may raise. *)
Definition lift {A} (r : result A) : M A := λ st, (r, st).

(** A primitive of the platform. *)
Definition os_call {A} (f : world → result A * world) : M A :=
  λ st, let '(r, w) := f (os_world st) in (r, State w (log st)).

Definition os_read {A} (f : world → A) : M A := λ st, (Ok (f (os_world st)), st).

(** [try: body except: handler] with a bare [except], which catches every
    exception; what [body] did before it raised stays done. *)
Definition try_except {A} (body handler : M A) : M A :=
  λ st, match body st with
        | (Ok a, st') => (Ok a, st')
        | (Raise _, st') => handler st'
        end.

(** [for x in l: body(x)] *)
Fixpoint for_each {A} (l : list A) (body : A → M unit) : M unit :=
  match l with
  | [] => ret tt
  | x :: l' => bind (body x) (λ _, for_each l' body)
  end.

(** A [for] loop that updates a local variable [acc]. *)
Fixpoint for_fold {A B} (l : list A) (acc : B) (body : B → A → M B) : M B :=
  match l with
  | [] => ret acc
  | x :: l' => bind (body acc x) (λ acc', for_fold l' acc' body)
  end.

Definition logging (l : level) (m : string) : M unit :=
  λ st, (Ok tt, State (os_world st) (log st ++ [LogRecord l m])%list).

#[global] Instance M_ret : MRet M := @ret.
#[global] Instance M_bind : MBind M := λ A B k m, bind m k.

End Helpers.

#[global] Instance result_ret : MRet result := @Ok.
#[global] Instance result_bind : MBind result :=
  λ A B k r, match r with Ok a => k a | Raise e => Raise e end.

(** ** The functions of helper_functions.py *)

Section HelperFunctions.

Context `{Platform}.

Definition os_path_abspath (path : option string) : M string :=
  match path with
  | None => raise TypeError
  | Some p => cwd ← os_read os_getcwd; mret (OsPath.abspath_in cwd p)
  end.

Definition retrieve_fastqgz (directory : string) : M (list string) :=
  os_read (glob_glob (OsPath.join directory "*.fastq.gz")).

(** The condition of the [if] in [valid_olc_id]; [and] evaluates its right
    operand only when the left one is true. *)
Definition olc_condition (id_components : list string) : result bool :=
  c0 ← Str.index id_components 0;
  if Str.isdigit c0 then
    c1 ← Str.index id_components 1;
    if String.eqb c1 "SEQ" then
      c2 ← Str.index id_components 2;
      mret (Str.isdigit c2)
    else mret false
  else mret false.

Definition valid_olc_id (filename : string) : M bool :=
  let sample_id := Str.take 13 (OsPath.basename filename) in
  let id_components := Str.split "-" sample_id in
  cond ← lift (olc_condition id_components);
  if cond : bool then mret true
  else
    logging WARNING ("WARNING: ID for " +:+ sample_id +:+ " is not a valid OLC ID");;
    mret false.

(** The body of the loop of [retrieve_unique_sampleids]. *)
Definition discovery_body (sample_id_list : list string) (file : string)
    : M (list string) :=
  ok ← valid_olc_id file;
  if ok : bool then
    let sample_id := Str.take 13 (OsPath.basename file) in
    mret (sample_id_list ++ [sample_id])%list
  else mret sample_id_list.

Definition retrieve_unique_sampleids (fastq_file_list : list string)
    : M (list string) :=
  logging INFO "Scanning for valid OLC sample IDs";;
  sample_id_list ← for_fold fastq_file_list [] discovery_body;
  (* Get unique sample IDs *)
  mret (list_of_set sample_id_list).

(** One iteration of the loop of [get_readpair] on the locals [(r1, r2)]. *)
Definition readpair_step (sample_id forward_id reverse_id : string)
    (acc : option string * option string) (file : string)
    : option string * option string :=
  let '(r1, r2) := acc in
  if Str.contains sample_id (OsPath.basename file) then
    if Str.contains forward_id (OsPath.basename file) then (Some file, r2)
    else if Str.contains reverse_id (OsPath.basename file) then (r1, Some file)
    else (r1, r2)
  else (r1, r2).

Definition readpair_scan (sample_id forward_id reverse_id : string)
    (fastq_file_list : list string) : option string * option string :=
  fold_left (readpair_step sample_id forward_id reverse_id)
    fastq_file_list (None, None).

Definition get_readpair (sample_id : string) (fastq_file_list : list string)
    (forward_id reverse_id : string) : M pyval :=
  let '(r1, r2) := readpair_scan sample_id forward_id reverse_id fastq_file_list in
  match r1 with
  | Some _ =>
      a1 ← os_path_abspath r1;
      a2 ← os_path_abspath r2;
      mret (PyList [PyStr a1; PyStr a2])
  | None =>
      logging DEBUG ("Could not pair " +:+ sample_id);;
      mret PyNone
  end.

(** The body of the loop of [populate_sample_dictionary]. *)
Definition populate_body (fastq_file_list : list string)
    (sample_dictionary : dict) (sample_id : string) : M dict :=
  read_pair ← get_readpair sample_id fastq_file_list "_R1" "_R2";
  mret (dict_set sample_id read_pair sample_dictionary).

Definition populate_sample_dictionary (sample_id_list fastq_file_list : list string)
    : M dict :=
  for_fold sample_id_list [] (populate_body fastq_file_list).

Definition get_sample_dictionary (directory : string) : M dict :=
  fastq_file_list ← retrieve_fastqgz directory;
  sample_id_list ← retrieve_unique_sampleids fastq_file_list;
  populate_sample_dictionary sample_id_list fastq_file_list.

Definition append_dummy_barcodes (path : string) : M unit :=
  files ← retrieve_fastqgz path;
  for_each files (λ file,
    ok ← valid_olc_id file;
    if ok : bool then
      src ← os_path_abspath (Some file);
      dst ← os_path_abspath (Some file);
      os_call (os_rename src (Str.replace "_S" "_00_S" dst))
    else mret tt);;
  logging INFO ("Added dummy barcodes to all valid OLC *.fastq.gz files in " +:+ path).

(** [os.path.basename] raises on anything but a path. *)
Definition create_symlink (target : pyval) (destination_folder : string) : M unit :=
  match target with
  | PyStr t =>
      os_call (os_symlink t (OsPath.join destination_folder (OsPath.basename t)))
  | _ => raise TypeError
  end.

(** The body of the [try] in [symlink_dictionary]. *)
Definition symlink_pair (key : string) (value : pyval) (destination_folder : string)
    : M unit :=
  v0 ← lift (subscript value 0);
  create_symlink v0 destination_folder;;
  v1 ← lift (subscript value 1);
  create_symlink v1 destination_folder;;
  logging DEBUG ("Created symlinks for " +:+ key).

Definition symlink_entry (destination_folder : string) (entry : string * pyval)
    : M unit :=
  let '(key, value) := entry in
  try_except
    (symlink_pair key value destination_folder)
    (logging ERROR ("Symbolic links to read pair " +:+ key +:+ " already exist")).

Definition symlink_dictionary (sample_dictionary : dict) (destination_folder : string)
    : M unit :=
  logging INFO ("Creating symlinks for samples at " +:+ destination_folder);;
  for_each sample_dictionary (symlink_entry destination_folder).

(** [b.decode('ascii')] *)
Definition decode_ascii (b : string) : result string :=
  if forallb (λ c, (nat_of_ascii c <? 128)%nat) (list_ascii_of_string b)
  then Ok b else Raise UnicodeDecodeError.

Definition execute_command (cmd : string) : M (string * string) :=
  '(out, err) ← os_call (popen_communicate cmd);
  o ← lift (decode_ascii out);
  e ← lift (decode_ascii err);
  mret (o, e).

Definition create_sampledata_artifact (datadir qiimedir : string) : M string :=
  let cmd :=
    "qiime tools import "
    +:+ "--type 'SampleData[PairedEndSequencesWithQuality]' "
    +:+ "--input-path " +:+ datadir +:+ " "
    +:+ "--output-path " +:+ OsPath.join qiimedir "paired-sample-data.qza" +:+ " "
    +:+ "--input-format CasavaOneEightSingleLanePerSampleDirFmt " in
  '(out, err) ← execute_command cmd;
  (* [out is not '' or err is not '']: the empty string is a single object *)
  (if negb (String.eqb out "") || negb (String.eqb err "")
   then logging DEBUG ("OUT: " +:+ out +:+ String "010" "ERR: " +:+ err)
   else mret tt);;
  logging INFO "Successfully created QIIME 2 data Artifact";;
  mret (OsPath.join qiimedir "paired-sample-data.qza").

Definition project_setup (outdir inputdir : string) : M string :=
  (* Create folder structure *)
  os_call (os_mkdir outdir);;
  os_call (os_mkdir (OsPath.join outdir "data"));;
  os_call (os_mkdir (OsPath.join outdir "qiime2"));;
  logging DEBUG ("Created QIIME2 analysis folder: " +:+ outdir);;
  (* Prepare dictionary containing R1 and R2 for each sample ID *)
  sample_dictionary ← get_sample_dictionary inputdir;
  logging DEBUG ("Sample Dictionary: " +:+ dict_str sample_dictionary);;
  (* Create symlinks in data folder *)
  symlink_dictionary sample_dictionary (OsPath.join outdir "data");;
  (* Fix symlink filenames for Qiime 2 *)
  append_dummy_barcodes (OsPath.join outdir "data");;
  (* Call Qiime 2 to create artifact *)
  logging INFO "Creating sample data artifact for QIIME 2...";;
  create_sampledata_artifact (OsPath.join outdir "data") (OsPath.join outdir "qiime2").

End HelperFunctions.


(** ** A POSIX file system as a platform

    Entries are keyed by absolute normalised path; a path given to a system
    call is resolved lexically against the current directory. External
    commands produce output and leave the file system alone. *)

Module Posix.

Inductive node : Type :=
  | Dir
  | File
  | Symlink (target : string).

Record fs_world : Type := World {
  cwd : string;
  entries : gmap string node;
  shell : string → string * string
}.

Definition resolve (w : fs_world) (p : string) : string :=
  OsPath.abspath_in (cwd w) p.

Definition with_entries (w : fs_world) (m : gmap string node) : fs_world :=
  World (cwd w) m (shell w).

Definition parent_check (w : fs_world) (a : string) : result unit :=
  match entries w !! OsPath.dirname a with
  | Some Dir => Ok tt
  | Some _ => Raise NotADirectoryError
  | None => Raise FileNotFoundError
  end.

(** [mkdir] and [symlink]: the name must be free and its parent a
    directory. *)
Definition create (n : node) (p : string) (w : fs_world) : result unit * fs_world :=
  if String.eqb p "" then (Raise FileNotFoundError, w)
  else
    let a := resolve w p in
    match entries w !! a with
    | Some _ => (Raise FileExistsError, w)
    | None =>
        match parent_check w a with
        | Ok _ => (Ok tt, with_entries w (<[a := n]> (entries w)))
        | Raise e => (Raise e, w)
        end
    end.

Definition mkdir (p : string) : fs_world → result unit * fs_world := create Dir p.

Definition symlink (src dst : string) : fs_world → result unit * fs_world :=
  create (Symlink src) dst.

Definition paths (w : fs_world) : list string := (map_to_list (entries w)).*1.

(** The paths directly inside directory [d]. *)
Definition children (w : fs_world) (d : string) : list string :=
  List.filter
    (λ k, String.eqb (OsPath.dirname k) d && negb (String.eqb k d))
    (paths w).

Definition rekey (a b k : string) : string :=
  if String.eqb k a then b
  else if Str.startswith (a +:+ "/") k then b +:+ Str.drop (String.length a) k
  else k.

Definition move_tree (a b : string) (m : gmap string node) : gmap string node :=
  list_to_map (List.map (λ kn, (rekey a b kn.1, kn.2)) (map_to_list (delete b m))).

Definition rename (src dst : string) (w : fs_world) : result unit * fs_world :=
  if String.eqb src "" || String.eqb dst "" then (Raise FileNotFoundError, w)
  else
    let a := resolve w src in
    let b := resolve w dst in
    match entries w !! a with
    | None => (Raise FileNotFoundError, w)
    | Some n =>
        match parent_check w b with
        | Raise e => (Raise e, w)
        | Ok _ =>
            if String.eqb a b then (Ok tt, w)
            else
              match n, entries w !! b with
              | Dir, Some Dir =>
                  if Str.startswith (a +:+ "/") b
                  then (Raise (OtherError "OSError: EINVAL"), w)
                  else
                    match children w b with
                    | [] => (Ok tt, with_entries w (move_tree a b (entries w)))
                    | _ => (Raise (OtherError "OSError: ENOTEMPTY"), w)
                    end
              | Dir, Some _ => (Raise NotADirectoryError, w)
              | Dir, None =>
                  if Str.startswith (a +:+ "/") b
                  then (Raise (OtherError "OSError: EINVAL"), w)
                  else (Ok tt, with_entries w (move_tree a b (entries w)))
              | _, Some Dir => (Raise (OtherError "IsADirectoryError"), w)
              | _, _ => (Ok tt, with_entries w (<[b := n]> (delete a (entries w))))
              end
        end
    end.

(** [glob.glob] for a pattern [dir/*suffix] without other wildcards: the
    names in [dir] that end with [suffix] and do not start with a dot, each
    joined to [dir]; nothing when [dir] is not a directory. *)
Definition glob (pattern : string) (w : fs_world) : list string :=
  let dirname := OsPath.dirname pattern in
  let basename := OsPath.basename pattern in
  if Str.startswith "*" basename then
    let suffix := Str.drop 1 basename in
    let d := resolve w dirname in
    match entries w !! d with
    | Some Dir =>
        List.map (λ k, OsPath.join dirname (OsPath.basename k))
          (List.filter
             (λ k, Str.endswith suffix (OsPath.basename k)
                   && negb (Str.startswith "." (OsPath.basename k)))
             (children w d))
    | _ => []
    end
  else
    match entries w !! resolve w pattern with
    | Some _ => [pattern]
    | None => []
    end.

Definition popen (cmd : string) (w : fs_world) : result (string * string) * fs_world :=
  (Ok (shell w cmd), w).

(** [repr] of the values of the sample dictionary, for strings that need
    no escaping. *)
Definition quote (s : string) : string := "'" +:+ s +:+ "'".

Fixpoint repr (v : pyval) : string :=
  match v with
  | PyNone => "None"
  | PyStr s => quote s
  | PyList l => "[" +:+ Str.join ", " (List.map repr l) +:+ "]"
  end.

Definition dict_repr (d : dict) : string :=
  "{" +:+ Str.join ", " (List.map (λ kv, quote kv.1 +:+ ": " +:+ repr kv.2) d) +:+ "}".

(** The order in which this platform lists a set: the one of the finite set
    of stdpp. *)
Definition unique (l : list string) : list string :=
  elements (list_to_set l : gset string).

#[global] Instance platform : Platform := {|
  world := fs_world;
  os_getcwd := cwd;
  glob_glob := glob;
  os_mkdir := mkdir;
  os_symlink := symlink;
  os_rename := rename;
  popen_communicate := popen;
  dict_str := dict_repr;
  list_of_set := unique;
  list_of_set_NoDup := λ l, NoDup_elements (list_to_set l : gset string);
  list_of_set_elem_of := λ l x,
    iff_trans (elem_of_elements (list_to_set l : gset string) x)
      (elem_of_list_to_set x l)
|}.

Definition quiet_shell : string → string * string := λ _, ("", "").

(** A run folder with the two reads of one sample, and an empty project
    folder. *)
Definition run_world : fs_world :=
  World "/home/olc"
    (list_to_map
       [("/", Dir); ("/home", Dir); ("/home/olc", Dir); ("/run", Dir);
        ("/run/2015-SEQ-0001_S1_L001_R1_001.fastq.gz", File);
        ("/run/2015-SEQ-0001_S1_L001_R2_001.fastq.gz", File)])
    quiet_shell.

(** A run folder in which a sample has its reverse read only. *)
Definition reverse_only_world : fs_world :=
  World "/home/olc"
    (list_to_map
       [("/", Dir); ("/home", Dir); ("/home/olc", Dir); ("/run", Dir);
        ("/run/2015-SEQ-0001_S1_L001_R2_001.fastq.gz", File)])
    quiet_shell.

(** A project folder under a directory whose own name contains the lane
    marker. *)
Definition underscore_world : fs_world :=
  World "/home/olc"
    (list_to_map
       [("/", Dir); ("/home", Dir); ("/home/olc", Dir);
        ("/home/olc/MiSeq_Sept", Dir); ("/home/olc/MiSeq_Sept/data", Dir);
        ("/home/olc/MiSeq_Sept/data/2015-SEQ-0001_S1_L001_R1_001.fastq.gz",
         Symlink "/run/2015-SEQ-0001_S1_L001_R1_001.fastq.gz")])
    quiet_shell.

(** A data folder with a read whose sample name contains the lane marker
    a second time. *)
Definition soil_world : fs_world :=
  World "/home/olc"
    (list_to_map
       [("/", Dir); ("/home", Dir); ("/home/olc", Dir);
        ("/home/olc/out", Dir); ("/home/olc/out/data", Dir);
        ("/home/olc/out/data/2015-SEQ-0001_Soil_S1_L001_R1_001.fastq.gz",
         Symlink "/run/2015-SEQ-0001_Soil_S1_L001_R1_001.fastq.gz")])
    quiet_shell.

(** A second run on a data folder that already holds the reverse link of the
    first sample. *)
Definition rerun_world : fs_world :=
  World "/home/olc"
    (list_to_map
       [("/", Dir); ("/home", Dir); ("/home/olc", Dir); ("/run", Dir);
        ("/run/2015-SEQ-0001_S1_L001_R1_001.fastq.gz", File);
        ("/run/2015-SEQ-0001_S1_L001_R2_001.fastq.gz", File);
        ("/run/2016-SEQ-0002_S2_L001_R1_001.fastq.gz", File);
        ("/run/2016-SEQ-0002_S2_L001_R2_001.fastq.gz", File);
        ("/home/olc/out", Dir); ("/home/olc/out/data", Dir);
        ("/home/olc/out/data/2015-SEQ-0001_S1_L001_R2_001.fastq.gz",
         Symlink "/run/2015-SEQ-0001_S1_L001_R2_001.fastq.gz")])
    quiet_shell.

(** A run folder with a file whose name starts with thirteen digits. *)
Definition digits_world : fs_world :=
  World "/home/olc"
    (list_to_map
       [("/", Dir); ("/home", Dir); ("/home/olc", Dir); ("/run", Dir);
        ("/run/1234567890123.fastq.gz", File)])
    quiet_shell.

Definition start (w : fs_world) : state := State w [].

End Posix.

(** ** The identifier pattern as the specification words it

    The first 13 characters of the base name split on the dash into exactly
    three components: digits, the literal SEQ, digits. *)

Definition spec_is_valid (filename : string) : bool :=
  match Str.split "-" (Str.take 13 (OsPath.basename filename)) with
  | [a; b; c] => Str.isdigit a && String.eqb b "SEQ" && Str.isdigit c
  | _ => false
  end.

(** What [valid_olc_id] looks at: the components of the 13-character prefix. *)
Definition id_components_of (filename : string) : list string :=
  Str.split "-" (Str.take 13 (OsPath.basename filename)).

(** The files the validator accepts, and the identifier taken from a file. *)
Definition accepted (filename : string) : bool :=
  match olc_condition (id_components_of filename) with
  | Ok true => true
  | _ => false
  end.

Definition sample_id_of (filename : string) : string :=
  Str.take 13 (OsPath.basename filename).

(** The files [retrieve_fastqgz] finds in a directory. *)
Definition fastq_files `{Platform} (directory : string) (st : state) : list string :=
  glob_glob (OsPath.join directory "*.fastq.gz") (os_world st).

(** The registry invariant as the specification words it: an identifier has
    an entry only if a forward read was resolved for it. *)
Definition entries_have_forward `{Platform} (directory : string) (st : state) : Prop :=
  ∀ d st', get_sample_dictionary directory st = (Ok d, st') →
    ∀ id, is_Some (dict_get id d) →
      is_Some (readpair_scan id "_R1" "_R2" (fastq_files directory st)).1.

(** The reverse slot of the scan only ever holds a file that matched the
    sample, lacked the forward marker and carried the reverse marker. *)
Definition reverse_slot_ok (sample_id forward_id reverse_id : string)
    (acc : option string * option string) : Prop :=
  ∀ f, acc.2 = Some f →
    Str.contains sample_id (OsPath.basename f) = true
    ∧ Str.contains forward_id (OsPath.basename f) = false
    ∧ Str.contains reverse_id (OsPath.basename f) = true.

(** State [st] with one more log record. *)
Definition logged `{Platform} (l : level) (m : string) (st : state) : state :=
  State (os_world st) (log st ++ [LogRecord l m]).

(** The name [create_symlink] gives the link to [target]. *)
Definition link_name (destination_folder target : string) : string :=
  OsPath.join destination_folder (OsPath.basename target).

(** The message of the handler in [symlink_dictionary]. *)
Definition already_exist (key : string) : string :=
  "Symbolic links to read pair " +:+ key +:+ " already exist".

(** Creating the links of the pair [(r1, r2)] in world [w] fails because a
    link name is taken, in the first or in the second call of [os.symlink],
    and leaves world [w2]. *)
Inductive pair_fails_exists `{Platform} (r1 r2 destination_folder : string)
    (w : world) : world → Prop :=
  | first_link_exists w2 :
      os_symlink r1 (link_name destination_folder r1) w = (Raise FileExistsError, w2) →
      pair_fails_exists r1 r2 destination_folder w w2
  | second_link_exists w1 w2 :
      os_symlink r1 (link_name destination_folder r1) w = (Ok tt, w1) →
      os_symlink r2 (link_name destination_folder r2) w1 = (Raise FileExistsError, w2) →
      pair_fails_exists r1 r2 destination_folder w w2.

(** The state after the three [os.mkdir] calls of [project_setup] and the
    debug record that follows them. *)
Definition folders_made `{Platform} (outdir : string) (st st3 : state) : Prop :=
  ∃ st1 st2,
    os_call (os_mkdir outdir) st = (Ok tt, st1)
    ∧ os_call (os_mkdir (OsPath.join outdir "data")) st1 = (Ok tt, st2)
    ∧ st3 = logged DEBUG ("Created QIIME2 analysis folder: " +:+ outdir)
              (os_call (os_mkdir (OsPath.join outdir "qiime2")) st2).2
    ∧ (os_call (os_mkdir (OsPath.join outdir "qiime2")) st2).1 = Ok tt.

(** [project_setup] raised [e] and ended in [st']: the step that raised, and
    [st'] is the state that very step left behind. *)
Inductive left_by_failing_step `{Platform} (outdir inputdir : string)
    (st : state) (e : exn) (st' : state) : Prop :=
  | fails_at_outdir :
      os_call (os_mkdir outdir) st = (Raise e, st') →
      left_by_failing_step outdir inputdir st e st'
  | fails_at_data st1 :
      os_call (os_mkdir outdir) st = (Ok tt, st1) →
      os_call (os_mkdir (OsPath.join outdir "data")) st1 = (Raise e, st') →
      left_by_failing_step outdir inputdir st e st'
  | fails_at_qiime2 st1 st2 :
      os_call (os_mkdir outdir) st = (Ok tt, st1) →
      os_call (os_mkdir (OsPath.join outdir "data")) st1 = (Ok tt, st2) →
      os_call (os_mkdir (OsPath.join outdir "qiime2")) st2 = (Raise e, st') →
      left_by_failing_step outdir inputdir st e st'
  | fails_at_registry st3 :
      folders_made outdir st st3 →
      get_sample_dictionary inputdir st3 = (Raise e, st') →
      left_by_failing_step outdir inputdir st e st'
  | fails_at_barcodes st3 d st4 st5 :
      folders_made outdir st st3 →
      get_sample_dictionary inputdir st3 = (Ok d, st4) →
      symlink_dictionary d (OsPath.join outdir "data")
        (logged DEBUG ("Sample Dictionary: " +:+ dict_str d) st4) = (Ok tt, st5) →
      append_dummy_barcodes (OsPath.join outdir "data") st5 = (Raise e, st') →
      left_by_failing_step outdir inputdir st e st'
  | fails_at_artifact st3 d st4 st5 st6 :
      folders_made outdir st st3 →
      get_sample_dictionary inputdir st3 = (Ok d, st4) →
      symlink_dictionary d (OsPath.join outdir "data")
        (logged DEBUG ("Sample Dictionary: " +:+ dict_str d) st4) = (Ok tt, st5) →
      append_dummy_barcodes (OsPath.join outdir "data") st5 = (Ok tt, st6) →
      create_sampledata_artifact (OsPath.join outdir "data") (OsPath.join outdir "qiime2")
        (logged INFO "Creating sample data artifact for QIIME 2..." st6) = (Raise e, st') →
      left_by_failing_step outdir inputdir st e st'.


(** ** The run-quality summary *)

(** Writing a text file: [open(path, "w")], [write] and [close] on the file
    object. *)
Class FileIO `{Platform} : Type := {
  handle : Type;
  file_open_w : string → world → result handle * world;
  file_write : handle → string → world → result unit * world;
  file_close : handle → world → result unit * world
}.

Section Summary.

Context `{FileIO}.

(** The body of the [try] in [make_interop_summary]. *)
Definition write_summary (outdir out : string) : M unit :=
  ifile ← os_call (file_open_w (OsPath.join outdir "interop_summary.csv"));
  os_call (file_write ifile out);;
  os_call (file_close ifile);;
  logging INFO "Made the interop_summary file".

Definition make_interop_summary (inputdir outdir : string) : M unit :=
  '(out, err) ← execute_command ("interop_summary " +:+ inputdir);
  if String.eqb (Str.take 9 out) "# Version" && (4000 <? String.length out)%nat
  then
    try_except
      (write_summary outdir out)
      (logging INFO "Couldn't write the interop_summary file!")
  else logging INFO "Something went wrong with interop_summary!".

End Summary.

(** Text files on the POSIX model: opening for writing makes a file entry
    (the model keeps no contents, so writing and closing change nothing). *)
Module PosixFiles.

Definition open_w (p : string) (w : Posix.fs_world)
    : result string * Posix.fs_world :=
  if String.eqb p "" then (Raise FileNotFoundError, w)
  else
    let a := Posix.resolve w p in
    match Posix.entries w !! a with
    | Some Posix.Dir => (Raise (OtherError "IsADirectoryError"), w)
    | _ =>
        match Posix.parent_check w a with
        | Ok _ => (Ok a, Posix.with_entries w (<[a := Posix.File]> (Posix.entries w)))
        | Raise e => (Raise e, w)
        end
    end.

#[global] Instance file_io : FileIO := {|
  handle := string;
  file_open_w := open_w;
  file_write := λ _ _ w, (Ok tt, w);
  file_close := λ _ w, (Ok tt, w)
|}.

Fixpoint filler (n : nat) : string :=
  match n with
  | O => ""
  | S n' => String "x" (filler n')
  end.

(** The summary tool answers with a header line and 4000 more characters. *)
Definition summary_shell : string → string * string :=
  λ _, ("# Version" +:+ filler 4000, "").

Definition summary_world : Posix.fs_world :=
  Posix.World "/home/olc"
    (list_to_map
       [("/", Posix.Dir); ("/home", Posix.Dir); ("/home/olc", Posix.Dir);
        ("/run", Posix.Dir); ("/home/olc/out", Posix.Dir)])
    summary_shell.

End PosixFiles.

(** More worlds for examples. *)

(** A data folder that holds only the link of the undetermined reads. *)
Definition undetermined_world : Posix.fs_world :=
  Posix.World "/home/olc"
    (list_to_map
       [("/", Posix.Dir); ("/home", Posix.Dir); ("/home/olc", Posix.Dir);
        ("/home/olc/out", Posix.Dir); ("/home/olc/out/data", Posix.Dir);
        ("/home/olc/out/data/Undetermined_S0_L001_R1_001.fastq.gz",
         Posix.Symlink "/run/Undetermined_S0_L001_R1_001.fastq.gz")])
    Posix.quiet_shell.

(** A data folder that holds the forward link of one sample. *)
Definition linked_world : Posix.fs_world :=
  Posix.World "/home/olc"
    (list_to_map
       [("/", Posix.Dir); ("/home", Posix.Dir); ("/home/olc", Posix.Dir);
        ("/home/olc/out", Posix.Dir); ("/home/olc/out/data", Posix.Dir);
        ("/home/olc/out/data/2015-SEQ-0001_S1_L001_R1_001.fastq.gz",
         Posix.Symlink "/run/2015-SEQ-0001_S1_L001_R1_001.fastq.gz")])
    Posix.quiet_shell.

(** ** Notions used in the statements below *)

(** The command line [create_sampledata_artifact] runs. *)
Definition import_command (datadir qiimedir : string) : string :=
  "qiime tools import "
  +:+ "--type 'SampleData[PairedEndSequencesWithQuality]' "
  +:+ "--input-path " +:+ datadir +:+ " "
  +:+ "--output-path " +:+ OsPath.join qiimedir "paired-sample-data.qza" +:+ " "
  +:+ "--input-format CasavaOneEightSingleLanePerSampleDirFmt ".

(** The path [os.rename] is given as the new name of [file]. *)
Definition barcode_name (abs : string) : string := Str.replace "_S" "_00_S" abs.

(** The body of the loop of [append_dummy_barcodes]. *)
Definition barcode_body `{Platform} (file : string) : M unit :=
  ok ← valid_olc_id file;
  if ok : bool then
    src ← os_path_abspath (Some file);
    dst ← os_path_abspath (Some file);
    os_call (os_rename src (Str.replace "_S" "_00_S" dst))
  else mret tt.

(** The closing record of [append_dummy_barcodes]. *)
Definition barcodes_added (path : string) : string :=
  "Added dummy barcodes to all valid OLC *.fastq.gz files in " +:+ path.

(** A file matches a sample and a marker when its base name contains both. *)
Definition carries (sample_id marker file : string) : bool :=
  Str.contains sample_id (OsPath.basename file)
  && Str.contains marker (OsPath.basename file).

(** A file takes the reverse role when its base name contains the sample
    identifier and the reverse marker, and not the forward marker. *)
Definition reverse_role (sample_id forward_id reverse_id file : string) : bool :=
  Str.contains sample_id (OsPath.basename file)
  && negb (Str.contains forward_id (OsPath.basename file))
  && Str.contains reverse_id (OsPath.basename file).

(** The last element of a list that satisfies a test. *)
Definition find_last {A} (P : A → bool) (l : list A) : option A :=
  List.find P (List.rev l).



(** The values [get_readpair] can return. *)
Definition pair_or_none (v : pyval) : Prop :=
  v = PyNone ∨ ∃ a b, v = PyList [PyStr a; PyStr b].

(** The validator raises on a file. *)
Definition validator_raises (filename : string) : Prop :=
  olc_condition (id_components_of filename) = Raise IndexError.

(** The validator returns on a file. *)
Definition validator_returns (filename : string) : Prop :=
  ∃ b, olc_condition (id_components_of filename) = Ok b.

(** The record [symlink_dictionary] leaves for one entry. *)
Definition outcome_record (key : string) (r : log_record) : Prop :=
  r = LogRecord DEBUG ("Created symlinks for " +:+ key)
  ∨ r = LogRecord ERROR (already_exist key).

(** Only bytes below 128. *)
Definition is_ascii (b : string) : bool :=
  forallb (λ c, (nat_of_ascii c <? 128)%nat) (list_ascii_of_string b).

(** * Properties *)

(** ** Sanity checks of the string and path layer *)

Example split_olc : Str.split "-" "2015-SEQ-0001" = ["2015"; "SEQ"; "0001"].
Proof. reflexivity. Qed.

Example split_keeps_empty : Str.split "-" "a--b-" = ["a"; ""; "b"; ""].
Proof. reflexivity. Qed.

Example replace_all_occurrences :
  Str.replace "_S" "_00_S" "x_S1_Sy__S" = "x_00_S1_00_Sy__00_S".
Proof. reflexivity. Qed.

Example basename_path :
  OsPath.basename "/run/data/2015-SEQ-0001_S1_L001_R1_001.fastq.gz"
  = "2015-SEQ-0001_S1_L001_R1_001.fastq.gz".
Proof. reflexivity. Qed.

Example dirname_path : OsPath.dirname "/run/data//x.fastq.gz" = "/run/data".
Proof. reflexivity. Qed.

Example normpath_dots : OsPath.normpath "/a/./b/../c//d/" = "/a/c/d".
Proof. reflexivity. Qed.

Example abspath_relative : OsPath.abspath_in "/home/olc" "run/../x" = "/home/olc/x".
Proof. reflexivity. Qed.

(** ** Unfolding computations *)

Ltac munfold :=
  unfold mbind, M_bind, mret, M_ret, result_bind, result_ret,
    bind, ret, raise, lift, os_call, os_read, logging, try_except in *.

Section StepLemmas.

Context `{Platform}.

Lemma bind_raise {A B} (m : M A) (k : A → M B) st e st' :
  m st = (Raise e, st') → (m ≫= k) st = (Raise e, st').
Proof. munfold. by intros ->. Qed.

Lemma logging_run l m st : logging l m st = (Ok tt, logged l m st).
Proof. reflexivity. Qed.

Lemma for_each_app {A} (l1 l2 : list A) (body : A → M unit) st st1 :
  for_each l1 body st = (Ok tt, st1) →
  for_each (l1 ++ l2) body st = for_each l2 body st1.
Proof.
  revert st. induction l1 as [|x l1 IH]; intros st; simpl.
  - unfold ret. by intros [= ->].
  - unfold bind. destruct (body x st) as [[[]|e] st0]; [|done].
    apply IH.
Qed.

(** A loop whose body never raises never raises. *)
Lemma for_each_total {A} (l : list A) (body : A → M unit) :
  (∀ x st, (body x st).1 = Ok tt) → ∀ st, (for_each l body st).1 = Ok tt.
Proof.
  intros Hbody. induction l as [|x l IH]; intros st; simpl; [done|].
  unfold bind. specialize (Hbody x st).
  destruct (body x st) as [[[]|e] st0]; simpl in Hbody; [apply IH | done].
Qed.

End StepLemmas.

(** ** The identifier validator *)

Section Validator.

Context `{Platform}.

Lemma olc_condition_true (comps : list string) :
  olc_condition comps = Ok true ↔
  ∃ a b rest, comps = a :: "SEQ" :: b :: rest
              ∧ Str.isdigit a = true ∧ Str.isdigit b = true.
Proof.
  unfold olc_condition, Str.index. split.
  - destruct comps as [|a [|s [|b rest]]]; simpl; try done;
      destruct (Str.isdigit a) eqn:Ha; simpl; try done;
      destruct (String.eqb s "SEQ") eqn:Hs; simpl; try done.
    apply String.eqb_eq in Hs as ->. intros [= Hb]. by exists a, b, rest.
  - intros (a & b & rest & -> & Ha & Hb). simpl. by rewrite Ha, Hb.
Qed.

(** The validator raises exactly when the digits (and SEQ) are there but a
    later component is not. *)
Lemma olc_condition_raises (comps : list string) e :
  olc_condition comps = Raise e ↔
  e = IndexError ∧
  (comps = [] ∨ (∃ a, comps = [a] ∧ Str.isdigit a = true)
   ∨ ∃ a, comps = [a; "SEQ"] ∧ Str.isdigit a = true).
Proof.
  unfold olc_condition, Str.index. split.
  - destruct comps as [|a [|s [|b rest]]]; simpl.
    + intros [= <-]. auto.
    + destruct (Str.isdigit a) eqn:Ha; simpl; [|done].
      intros [= <-]. split; [done|]. right. left. by exists a.
    + destruct (Str.isdigit a) eqn:Ha; simpl; [|done].
      destruct (String.eqb s "SEQ") eqn:Hs; simpl; [|done].
      apply String.eqb_eq in Hs as ->.
      intros [= <-]. split; [done|]. right. right. by exists a.
    + destruct (Str.isdigit a); simpl; [|done].
      destruct (String.eqb s "SEQ"); simpl; done.
  - intros [-> [-> | [(a & -> & Ha) | (a & -> & Ha)]]]; simpl;
      rewrite ?Ha; done.
Qed.

Lemma valid_olc_id_run (filename : string) st :
  valid_olc_id filename st =
  match olc_condition (id_components_of filename) with
  | Ok true => (Ok true, st)
  | Ok false =>
      (Ok false,
       logged WARNING
         ("WARNING: ID for " +:+ Str.take 13 (OsPath.basename filename)
          +:+ " is not a valid OLC ID") st)
  | Raise e => (Raise e, st)
  end.
Proof.
  unfold valid_olc_id, id_components_of. munfold.
  by destruct (olc_condition _) as [[]|].
Qed.

(** C1 (the code departs from the claim): on a base name whose first 13
    characters are digits without a dash, and on the short base name
    2015-SEQ with a single dash, the validator does not return false: the
    unguarded access to the next component raises IndexError. *)
Theorem valid_olc_id_raises_on_missing_component st :
  valid_olc_id "/run/1234567890123.fastq.gz" st = (Raise IndexError, st)
  ∧ valid_olc_id "2015-SEQ" st = (Raise IndexError, st).
Proof. split; by rewrite valid_olc_id_run. Qed.

(** C4 (as amended): the validator returns true exactly when the first 13
    characters of the base name split on the dash into at least three
    components of which the first and the third are entirely digits and
    the second is the literal SEQ; components after the third are not
    looked at. *)
Theorem valid_olc_id_true_iff (filename : string) st :
  (valid_olc_id filename st).1 = Ok true ↔
  ∃ a b rest,
    Str.split "-" (Str.take 13 (OsPath.basename filename)) = a :: "SEQ" :: b :: rest
    ∧ Str.isdigit a = true ∧ Str.isdigit b = true.
Proof.
  rewrite valid_olc_id_run, <- olc_condition_true.
  fold (id_components_of filename).
  destruct (olc_condition (id_components_of filename)) as [[]|e]; simpl;
    split; congruence.
Qed.

End Validator.

(** C4 (counterexample): the prefix 1-SEQ-1-abcde has four components, so it
    is not of the form digits-SEQ-digits, and the validator returns true. *)
Lemma valid_olc_id_accepts_four_components :
  ¬ ((valid_olc_id "/run/1-SEQ-1-abcde.fastq.gz" (Posix.start Posix.run_world)).1
       = Ok true
     ↔ spec_is_valid "/run/1-SEQ-1-abcde.fastq.gz" = true).
Proof. intros [Hcode _]. specialize (Hcode eq_refl). vm_compute in Hcode. done. Qed.

(** ** Sample discovery *)

Section Discovery.

Context `{Platform}.

Lemma discovery_loop (files : list string) :
  (∀ f, f ∈ files → ∃ b, olc_condition (id_components_of f) = Ok b) →
  ∀ acc st, ∃ st',
    for_fold files acc discovery_body st
    = (Ok (acc ++ (sample_id_of <$> List.filter accepted files))%list, st').
Proof.
  induction files as [|f files IH]; intros Hret acc st; simpl.
  - exists st. unfold ret. by rewrite app_nil_r.
  - destruct (Hret f) as [b Hb]; [left|].
    assert (Hrest : ∀ g, g ∈ files → ∃ b, olc_condition (id_components_of g) = Ok b)
      by (intros g Hg; apply Hret; by right).
    unfold bind at 1, discovery_body at 1. munfold.
    rewrite valid_olc_id_run. unfold accepted at 1. rewrite Hb.
    destruct b; simpl.
    + destruct (IH Hrest (acc ++ [sample_id_of f])%list st) as [st' Hst'].
      exists st'. rewrite <- app_assoc in Hst'. exact Hst'.
    + apply IH, Hrest.
Qed.

(** Whenever the validator returns on every file, discovery returns the
    identifiers of the accepted files, each once. *)
Lemma retrieve_unique_sampleids_returns (files : list string) st :
  (∀ f, f ∈ files → ∃ b, olc_condition (id_components_of f) = Ok b) →
  ∃ ids st',
    retrieve_unique_sampleids files st = (Ok ids, st')
    ∧ NoDup ids
    ∧ ∀ id, id ∈ ids ↔ ∃ f, f ∈ files ∧ accepted f = true ∧ id = sample_id_of f.
Proof.
  intros Hret.
  destruct (discovery_loop files Hret []
              (logged INFO "Scanning for valid OLC sample IDs" st)) as [st' Hloop].
  eexists _, st'. split; [|split].
  - unfold retrieve_unique_sampleids. munfold. simpl.
    unfold logged in Hloop. by rewrite Hloop.
  - apply list_of_set_NoDup.
  - intros id. rewrite list_of_set_elem_of. simpl.
    rewrite list_elem_of_fmap. split.
    + intros (f & -> & Hf). apply list_elem_of_In, filter_In in Hf as [Hin Hacc].
      exists f. by rewrite list_elem_of_In.
    + intros (f & Hin & Hacc & ->). exists f. split; [done|].
      apply list_elem_of_In, filter_In. by rewrite <- list_elem_of_In.
Qed.

(** C7 (the code departs from the claim): when the list holds a file whose
    first 13 characters are digits without a dash, no file is accepted and
    discovery does not return the empty collection: the IndexError of the
    validator propagates. *)
Theorem retrieve_unique_sampleids_raises st :
  retrieve_unique_sampleids ["/run/1234567890123.fastq.gz"] st
  = (Raise IndexError, logged INFO "Scanning for valid OLC sample IDs" st).
Proof. reflexivity. Qed.

End Discovery.

(** ** The read pairer *)

Lemma find_snoc {A} (P : A → bool) (l : list A) (x : A) :
  List.find P (l ++ [x])
  = match List.find P l with
    | Some y => Some y
    | None => if P x then Some x else None
    end.
Proof.
  induction l as [|y l IH]; simpl; [done|].
  by destruct (P y).
Qed.

Lemma find_last_cons {A} (P : A → bool) (x : A) (l : list A) :
  find_last P (x :: l)
  = match find_last P l with
    | Some y => Some y
    | None => if P x then Some x else None
    end.
Proof. unfold find_last. simpl. apply find_snoc. Qed.

Lemma find_last_none {A} (P : A → bool) (l : list A) :
  find_last P l = None ↔ ∀ x, x ∈ l → P x = false.
Proof.
  unfold find_last. split.
  - intros Hnone x Hx. apply (find_none P _ Hnone).
    by rewrite <- in_rev, <- list_elem_of_In.
  - intros Hall. destruct (List.find P (rev l)) as [y|] eqn:Hfind; [|done].
    apply find_some in Hfind as [Hin Hy].
    rewrite <- in_rev, <- list_elem_of_In in Hin.
    apply Hall in Hin. congruence.
Qed.

Lemma find_last_some {A} (P : A → bool) (l : list A) (x : A) :
  find_last P l = Some x → x ∈ l ∧ P x = true.
Proof.
  unfold find_last. intros [Hin Hx]%find_some.
  split; [|done]. by rewrite list_elem_of_In, in_rev.
Qed.

(** After the scan each slot holds the last file of the list that takes the
    role, or what it held before when there is none. *)
Lemma readpair_fold_slots (sample_id forward_id reverse_id : string)
    (files : list string) :
  ∀ acc,
    fold_left (readpair_step sample_id forward_id reverse_id) files acc
    = (match find_last (carries sample_id forward_id) files with
       | Some f => Some f
       | None => acc.1
       end,
       match find_last (reverse_role sample_id forward_id reverse_id) files with
       | Some f => Some f
       | None => acc.2
       end).
Proof.
  induction files as [|file files IH]; intros [r1 r2]; [done|].
  simpl. rewrite IH, !find_last_cons. clear IH.
  destruct (find_last (carries sample_id forward_id) files) as [a|],
    (find_last (reverse_role sample_id forward_id reverse_id) files) as [b|];
    unfold readpair_step, carries, reverse_role;
    destruct (Str.contains sample_id (OsPath.basename file)),
      (Str.contains forward_id (OsPath.basename file)),
      (Str.contains reverse_id (OsPath.basename file)); done.
Qed.

Lemma readpair_scan_slots (sample_id forward_id reverse_id : string)
    (files : list string) :
  readpair_scan sample_id forward_id reverse_id files
  = (find_last (carries sample_id forward_id) files,
     find_last (reverse_role sample_id forward_id reverse_id) files).
Proof.
  unfold readpair_scan. rewrite readpair_fold_slots. simpl.
  by destruct (find_last (carries sample_id forward_id) files),
    (find_last (reverse_role sample_id forward_id reverse_id) files).
Qed.

Lemma find_last_app_last {A} (P : A → bool) (l1 l2 : list A) (x : A) :
  P x = true → (∀ y, y ∈ l2 → P y = false) →
  find_last P (l1 ++ x :: l2) = Some x.
Proof.
  intros Hx Hl2. induction l1 as [|z l1 IH]; simpl.
  - rewrite find_last_cons.
    apply find_last_none in Hl2 as ->. by rewrite Hx.
  - by rewrite find_last_cons, IH.
Qed.

Lemma find_last_app_hit {A} (P : A → bool) (l1 l2 : list A) (x : A) :
  P x = true →
  find_last P (l1 ++ x :: l2) = Some (default x (find_last P l2)).
Proof.
  intros Hx. induction l1 as [|z l1 IH]; simpl.
  - rewrite find_last_cons, Hx. by destruct (find_last P l2).
  - by rewrite find_last_cons, IH.
Qed.

Lemma find_last_app_miss {A} (P : A → bool) (l1 l2 : list A) (x : A) :
  P x = false →
  find_last P (l1 ++ x :: l2) = find_last P (l1 ++ l2).
Proof.
  intros Hx. induction l1 as [|z l1 IH]; simpl.
  - rewrite find_last_cons, Hx. by destruct (find_last P l2).
  - by rewrite (find_last_cons P z (l1 ++ x :: l2)),
      (find_last_cons P z (l1 ++ l2)), IH.
Qed.

Section Pairer.

Context `{Platform}.

Lemma get_readpair_run (sample_id : string) (files : list string)
    (forward_id reverse_id : string) st :
  get_readpair sample_id files forward_id reverse_id st =
  match readpair_scan sample_id forward_id reverse_id files with
  | (Some r1, Some r2) =>
      (Ok (PyList [PyStr (OsPath.abspath_in (os_getcwd (os_world st)) r1);
                   PyStr (OsPath.abspath_in (os_getcwd (os_world st)) r2)]), st)
  | (Some r1, None) => (Raise TypeError, st)
  | (None, _) => (Ok PyNone, logged DEBUG ("Could not pair " +:+ sample_id) st)
  end.
Proof.
  unfold get_readpair.
  by destruct (readpair_scan _ _ _ _) as [[r1|] [r2|]].
Qed.

(** A forward read without a reverse read: [os.path.abspath(None)] raises. *)
Lemma get_readpair_forward_only (sample_id : string) (files : list string)
    (forward_id reverse_id r1 : string) st :
  readpair_scan sample_id forward_id reverse_id files = (Some r1, None) →
  get_readpair sample_id files forward_id reverse_id st = (Raise TypeError, st).
Proof. intros Hscan. by rewrite get_readpair_run, Hscan. Qed.

(** C2 (the code departs from the claim): with the forward read of a sample
    and no reverse read in the list, the pairer does not return a pair with
    a null reverse slot: [os.path.abspath] applied to the unset reverse read
    raises TypeError. *)
Theorem get_readpair_forward_only_raises st :
  get_readpair "2015-SEQ-0001" ["/run/2015-SEQ-0001_S1_L001_R1_001.fastq.gz"]
    "_R1" "_R2" st
  = (Raise TypeError, st).
Proof. by rewrite get_readpair_run. Qed.

Lemma readpair_step_reverse_slot (sample_id forward_id reverse_id : string) acc file :
  reverse_slot_ok sample_id forward_id reverse_id acc →
  reverse_slot_ok sample_id forward_id reverse_id
    (readpair_step sample_id forward_id reverse_id acc file).
Proof.
  destruct acc as [r1 r2]. unfold reverse_slot_ok, readpair_step.
  intros Hacc f.
  destruct (Str.contains sample_id _) eqn:Hs; [|apply Hacc].
  destruct (Str.contains forward_id _) eqn:Hf; [apply Hacc|].
  destruct (Str.contains reverse_id _) eqn:Hr; [|apply Hacc].
  simpl. by intros [= <-].
Qed.

Lemma readpair_fold_reverse_slot (sample_id forward_id reverse_id : string) files :
  ∀ acc,
    reverse_slot_ok sample_id forward_id reverse_id acc →
    reverse_slot_ok sample_id forward_id reverse_id
      (fold_left (readpair_step sample_id forward_id reverse_id) files acc).
Proof.
  induction files as [|file files IH]; intros acc Hacc; simpl; [done|].
  by apply IH, readpair_step_reverse_slot.
Qed.

(** C9: a file whose base name contains the sample identifier and both
    markers is given the forward role and never the reverse role. The
    iteration of the loop on the file puts it in the forward slot and leaves
    the reverse slot as it was. So the loop, once past the file, holds it in
    the forward slot, and at its end holds there the file or a later file
    with the forward marker; the reverse slot is what it is without the
    file, and after no scan is it the file. [get_readpair] then never
    returns the null value; when it returns, it has logged nothing, and the
    second path of the pair comes from another file. *)
Theorem both_markers_forward_only (sample_id forward_id reverse_id file : string)
    (before after : list string) st :
  Str.contains sample_id (OsPath.basename file) = true →
  Str.contains forward_id (OsPath.basename file) = true →
  Str.contains reverse_id (OsPath.basename file) = true →
  (∀ r1 r2, readpair_step sample_id forward_id reverse_id (r1, r2) file
            = (Some file, r2))
  ∧ readpair_scan sample_id forward_id reverse_id (before ++ [file])%list
    = (Some file, (readpair_scan sample_id forward_id reverse_id before).2)
  ∧ (readpair_scan sample_id forward_id reverse_id (before ++ file :: after)%list).1
    = Some (default file (find_last (carries sample_id forward_id) after))
  ∧ (readpair_scan sample_id forward_id reverse_id (before ++ file :: after)%list).2
    = (readpair_scan sample_id forward_id reverse_id (before ++ after)%list).2
  ∧ (∀ files, (readpair_scan sample_id forward_id reverse_id files).2 ≠ Some file)
  ∧ (get_readpair sample_id (before ++ file :: after)%list forward_id reverse_id st).1
    ≠ Ok PyNone
  ∧ ∀ v st',
      get_readpair sample_id (before ++ file :: after)%list forward_id reverse_id st
      = (Ok v, st') →
      st' = st
      ∧ ∃ r2,
          (readpair_scan sample_id forward_id reverse_id (before ++ after)%list).2
          = Some r2
          ∧ r2 ≠ file
          ∧ v = PyList
                  [PyStr (OsPath.abspath_in (os_getcwd (os_world st))
                            (default file
                               (find_last (carries sample_id forward_id) after)));
                   PyStr (OsPath.abspath_in (os_getcwd (os_world st)) r2)].
Proof.
  intros Hs Hf Hr.
  assert (Hfwd : carries sample_id forward_id file = true)
    by (unfold carries; by rewrite Hs, Hf).
  assert (Hrev : reverse_role sample_id forward_id reverse_id file = false)
    by (unfold reverse_role; by rewrite Hs, Hf).
  assert (Hnever : ∀ files,
            find_last (reverse_role sample_id forward_id reverse_id) files
            ≠ Some file).
  { intros files [_ Hrole]%find_last_some. congruence. }
  split; [|split; [|split; [|split; [|split; [|split]]]]].
  - intros r1 r2. unfold readpair_step. by rewrite Hs, Hf.
  - rewrite !readpair_scan_slots. simpl.
    rewrite (find_last_app_hit _ before [] file Hfwd),
      (find_last_app_miss _ before [] file Hrev).
    by rewrite app_nil_r.
  - rewrite readpair_scan_slots. simpl. by apply find_last_app_hit.
  - rewrite !readpair_scan_slots. simpl. by apply find_last_app_miss.
  - intros files. rewrite readpair_scan_slots. simpl. apply Hnever.
  - rewrite get_readpair_run, readpair_scan_slots.
    rewrite (find_last_app_hit _ before after file Hfwd).
    by destruct (find_last _ (before ++ file :: after)%list).
  - intros v st'. rewrite get_readpair_run, !readpair_scan_slots.
    rewrite (find_last_app_hit _ before after file Hfwd),
      (find_last_app_miss _ before after file Hrev). simpl.
    destruct (find_last (reverse_role sample_id forward_id reverse_id)
                (before ++ after)%list) as [r2|] eqn:Hr2; [|done].
    intros [= <- <-]. split; [done|]. exists r2. split; [done|]. split; [|done].
    intros ->. by apply (Hnever (before ++ after)%list).
Qed.

(** A file with both markers that is alone is not paired with itself: the
    reverse read stays unset, and the absolute path of the unset value is
    asked for. *)
Example both_markers_alone_is_no_pair st :
  get_readpair "2015-SEQ-0001" ["/run/2015-SEQ-0001_S1_R1_R2.fastq.gz"] "_R1" "_R2" st
  = (Raise TypeError, st).
Proof. by rewrite get_readpair_run. Qed.

End Pairer.

Lemma both_markers_forward_only_witness :
  (∀ r1 r2, readpair_step "2015-SEQ-0001" "_R1" "_R2" (r1, r2)
              "/run/2015-SEQ-0001_S1_R1_R2.fastq.gz"
            = (Some "/run/2015-SEQ-0001_S1_R1_R2.fastq.gz", r2))
  ∧ readpair_scan "2015-SEQ-0001" "_R1" "_R2"
      (["/run/2015-SEQ-0001_S1_L001_R2_001.fastq.gz"]
       ++ ["/run/2015-SEQ-0001_S1_R1_R2.fastq.gz"])%list
    = (Some "/run/2015-SEQ-0001_S1_R1_R2.fastq.gz",
       (readpair_scan "2015-SEQ-0001" "_R1" "_R2"
          ["/run/2015-SEQ-0001_S1_L001_R2_001.fastq.gz"]).2)
  ∧ (readpair_scan "2015-SEQ-0001" "_R1" "_R2"
       (["/run/2015-SEQ-0001_S1_L001_R2_001.fastq.gz"]
        ++ "/run/2015-SEQ-0001_S1_R1_R2.fastq.gz"
           :: ["/run/2016-SEQ-0002_S2_L001_R1_001.fastq.gz"])%list).1
    = Some (default "/run/2015-SEQ-0001_S1_R1_R2.fastq.gz"
              (find_last (carries "2015-SEQ-0001" "_R1")
                 ["/run/2016-SEQ-0002_S2_L001_R1_001.fastq.gz"]))
  ∧ (readpair_scan "2015-SEQ-0001" "_R1" "_R2"
       (["/run/2015-SEQ-0001_S1_L001_R2_001.fastq.gz"]
        ++ "/run/2015-SEQ-0001_S1_R1_R2.fastq.gz"
           :: ["/run/2016-SEQ-0002_S2_L001_R1_001.fastq.gz"])%list).2
    = (readpair_scan "2015-SEQ-0001" "_R1" "_R2"
         (["/run/2015-SEQ-0001_S1_L001_R2_001.fastq.gz"]
          ++ ["/run/2016-SEQ-0002_S2_L001_R1_001.fastq.gz"])%list).2
  ∧ (∀ files, (readpair_scan "2015-SEQ-0001" "_R1" "_R2" files).2
              ≠ Some "/run/2015-SEQ-0001_S1_R1_R2.fastq.gz")
  ∧ (get_readpair "2015-SEQ-0001"
       (["/run/2015-SEQ-0001_S1_L001_R2_001.fastq.gz"]
        ++ "/run/2015-SEQ-0001_S1_R1_R2.fastq.gz"
           :: ["/run/2016-SEQ-0002_S2_L001_R1_001.fastq.gz"])%list
       "_R1" "_R2" (Posix.start Posix.run_world)).1
    ≠ Ok PyNone
  ∧ ∀ v st',
      get_readpair "2015-SEQ-0001"
        (["/run/2015-SEQ-0001_S1_L001_R2_001.fastq.gz"]
         ++ "/run/2015-SEQ-0001_S1_R1_R2.fastq.gz"
            :: ["/run/2016-SEQ-0002_S2_L001_R1_001.fastq.gz"])%list
        "_R1" "_R2" (Posix.start Posix.run_world)
      = (Ok v, st') →
      st' = Posix.start Posix.run_world
      ∧ ∃ r2,
          (readpair_scan "2015-SEQ-0001" "_R1" "_R2"
             (["/run/2015-SEQ-0001_S1_L001_R2_001.fastq.gz"]
              ++ ["/run/2016-SEQ-0002_S2_L001_R1_001.fastq.gz"])%list).2
          = Some r2
          ∧ r2 ≠ "/run/2015-SEQ-0001_S1_R1_R2.fastq.gz"
          ∧ v = PyList
                  [PyStr (OsPath.abspath_in
                            (os_getcwd (os_world (Posix.start Posix.run_world)))
                            (default "/run/2015-SEQ-0001_S1_R1_R2.fastq.gz"
                               (find_last (carries "2015-SEQ-0001" "_R1")
                                  ["/run/2016-SEQ-0002_S2_L001_R1_001.fastq.gz"])));
                   PyStr (OsPath.abspath_in
                            (os_getcwd (os_world (Posix.start Posix.run_world)))
                            r2)].
Proof.
  apply (both_markers_forward_only "2015-SEQ-0001" "_R1" "_R2"
           "/run/2015-SEQ-0001_S1_R1_R2.fastq.gz"
           ["/run/2015-SEQ-0001_S1_L001_R2_001.fastq.gz"]
           ["/run/2016-SEQ-0002_S2_L001_R1_001.fastq.gz"]
           (Posix.start Posix.run_world)); reflexivity.
Defined.

(** The scan of the three files of the example above: the file with both
    markers is the forward read, the reverse read is the other file. *)
Example both_markers_scan :
  readpair_scan "2015-SEQ-0001" "_R1" "_R2"
    ["/run/2015-SEQ-0001_S1_L001_R2_001.fastq.gz";
     "/run/2015-SEQ-0001_S1_R1_R2.fastq.gz";
     "/run/2016-SEQ-0002_S2_L001_R1_001.fastq.gz"]
  = (Some "/run/2015-SEQ-0001_S1_R1_R2.fastq.gz",
     Some "/run/2015-SEQ-0001_S1_L001_R2_001.fastq.gz").
Proof. reflexivity. Qed.

(** ** The sample dictionary *)

Lemma dict_get_set_eq (k : string) (v : pyval) (d : dict) :
  dict_get k (dict_set k v d) = Some v.
Proof.
  induction d as [|[k' v'] d IH]; simpl.
  - by rewrite String.eqb_refl.
  - destruct (String.eqb k' k) eqn:Hk; simpl; by rewrite Hk.
Qed.

Lemma dict_get_set_ne (k k0 : string) (v : pyval) (d : dict) :
  k ≠ k0 → dict_get k0 (dict_set k v d) = dict_get k0 d.
Proof.
  intros Hne. induction d as [|[k' v'] d IH]; simpl.
  - destruct (String.eqb k k0) eqn:Hk; [|done].
    by apply String.eqb_eq in Hk.
  - destruct (String.eqb k' k) eqn:Hk; simpl.
    + apply String.eqb_eq in Hk as ->.
      destruct (String.eqb k k0) eqn:Hk0; [|done].
      by apply String.eqb_eq in Hk0.
    + by rewrite IH.
Qed.

Section Registry.

Context `{Platform}.

Lemma discovery_loop_inv (files : list string) :
  ∀ acc st ids st',
    for_fold files acc discovery_body st = (Ok ids, st') →
    ids = (acc ++ (sample_id_of <$> List.filter accepted files))%list
    ∧ os_world st' = os_world st.
Proof.
  induction files as [|f files IH]; intros acc st ids st'; simpl.
  - unfold ret. intros [= <- <-]. by rewrite app_nil_r.
  - unfold bind at 1, discovery_body at 1. munfold.
    rewrite valid_olc_id_run. unfold accepted at 1.
    destruct (olc_condition (id_components_of f)) as [[]|e]; simpl; [| |done].
    + intros Hloop. apply IH in Hloop as [-> ->].
      by rewrite <- app_assoc.
    + intros Hloop. by apply IH in Hloop as [-> ->].
Qed.

Lemma retrieve_unique_sampleids_inv (files : list string) st ids st' :
  retrieve_unique_sampleids files st = (Ok ids, st') →
  os_world st' = os_world st
  ∧ ∀ id, id ∈ ids ↔ ∃ f, f ∈ files ∧ accepted f = true ∧ id = sample_id_of f.
Proof.
  unfold retrieve_unique_sampleids. munfold.
  destruct (for_fold files [] discovery_body _) as [[l|e] st1] eqn:Hloop; [|done].
  intros [= <- <-]. apply discovery_loop_inv in Hloop as [-> Hw].
  split; [done|]. intros id.
  rewrite list_of_set_elem_of. simpl.
  rewrite list_elem_of_fmap. split.
  - intros (f & -> & Hf). apply list_elem_of_In, filter_In in Hf as [Hin Hacc].
    exists f. by rewrite list_elem_of_In.
  - intros (f & Hin & Hacc & ->). exists f. split; [done|].
    apply list_elem_of_In, filter_In. by rewrite <- list_elem_of_In.
Qed.

(** The loop stores an entry for every identifier it is given, whatever the
    pairer returned for it. *)
Lemma populate_loop (files : list string) (ids : list string) :
  ∀ d0 st d st',
    for_fold ids d0 (populate_body files) st = (Ok d, st') →
    (∀ id, is_Some (dict_get id d) ↔ id ∈ ids ∨ is_Some (dict_get id d0))
    ∧ (∀ id, (readpair_scan id "_R1" "_R2" files).1 = None →
             id ∈ ids ∨ dict_get id d0 = Some PyNone →
             dict_get id d = Some PyNone).
Proof.
  induction ids as [|k ids IH]; intros d0 st d st'; simpl.
  - unfold ret. intros [= <- <-]. split.
    + intros id. rewrite elem_of_nil. tauto.
    + intros id _ [Hin | Hd]; [by apply elem_of_nil in Hin | done].
  - unfold bind at 1, populate_body at 1. munfold.
    rewrite get_readpair_run.
    destruct (readpair_scan k "_R1" "_R2" files) as [r1 r2] eqn:Hscan.
    set (cwd := os_getcwd (os_world st)).
    assert (Hstep : ∀ v st1,
      for_fold ids (dict_set k v d0) (populate_body files) st1 = (Ok d, st') →
      (r1 = None → v = PyNone) →
      (∀ id, is_Some (dict_get id d) ↔ id ∈ k :: ids ∨ is_Some (dict_get id d0))
      ∧ (∀ id, (readpair_scan id "_R1" "_R2" files).1 = None →
               id ∈ k :: ids ∨ dict_get id d0 = Some PyNone →
               dict_get id d = Some PyNone)).
    { intros v st1 Hloop Hv. apply IH in Hloop as [Hkeys Hnone]. split.
      - intros id. rewrite Hkeys, elem_of_cons.
        destruct (decide (k = id)) as [->|Hne].
        + rewrite dict_get_set_eq. split; [auto | intros _; right; eauto].
        + rewrite dict_get_set_ne by done. split; intros [?|?]; auto.
          destruct H0; [congruence | auto].
      - intros id Habsent Hid. apply Hnone; [done|].
        destruct (decide (k = id)) as [->|Hne].
        + right. rewrite dict_get_set_eq, Hv; [done|].
          by rewrite Hscan in Habsent.
        + rewrite dict_get_set_ne by done.
          destruct Hid as [Hin|Hd]; [|by right].
          apply elem_of_cons in Hin as [->|Hin]; [done | by left]. }
    destruct r1 as [r1|]; [destruct r2 as [r2|]|]; simpl; [| done |].
    + intros Hloop. by eapply Hstep.
    + intros Hloop. by eapply Hstep.
Qed.

(** C3 (as amended): the registry holds an entry for every identifier
    discovered in the directory (the 13-character prefix of a file the
    validator accepts) and for no other; an identifier for which no forward
    read was found is not left out: its entry holds the null value. *)
Theorem get_sample_dictionary_entries (directory : string) st d st' :
  get_sample_dictionary directory st = (Ok d, st') →
  (∀ id, is_Some (dict_get id d) ↔
         ∃ f, f ∈ fastq_files directory st ∧ accepted f = true ∧ id = sample_id_of f)
  ∧ (∀ id, is_Some (dict_get id d) →
           (readpair_scan id "_R1" "_R2" (fastq_files directory st)).1 = None →
           dict_get id d = Some PyNone).
Proof.
  unfold get_sample_dictionary, retrieve_fastqgz. munfold. simpl.
  fold (fastq_files directory st). set (files := fastq_files directory st).
  destruct (retrieve_unique_sampleids files st) as [[ids|e] st1] eqn:Hids; [|done].
  intros Hpop. apply retrieve_unique_sampleids_inv in Hids as [_ Hids].
  apply populate_loop in Hpop as [Hkeys Hnone].
  assert (Hdom : ∀ id, is_Some (dict_get id d) ↔ id ∈ ids).
  { intros id. rewrite Hkeys. simpl. split; [|auto].
    intros [?|[? ?]]; [done | discriminate]. }
  split.
  - intros id. by rewrite Hdom, Hids.
  - intros id Hsome Habsent. apply Hnone; [done|]. left. by apply Hdom.
Qed.

End Registry.

Lemma get_sample_dictionary_entries_witness :
  let st := Posix.start Posix.reverse_only_world in
  let d := [("2015-SEQ-0001", PyNone)] in
  (∀ id, is_Some (dict_get id d) ↔
         ∃ f, f ∈ fastq_files "/run" st ∧ accepted f = true ∧ id = sample_id_of f)
  ∧ (∀ id, is_Some (dict_get id d) →
           (readpair_scan id "_R1" "_R2" (fastq_files "/run" st)).1 = None →
           dict_get id d = Some PyNone).
Proof.
  apply (get_sample_dictionary_entries "/run" (Posix.start Posix.reverse_only_world)
           [("2015-SEQ-0001", PyNone)]
           (get_sample_dictionary "/run" (Posix.start Posix.reverse_only_world)).2).
  reflexivity.
Defined.

(** C3 (counterexample): a run folder that holds only the reverse read of
    sample 2015-SEQ-0001. No forward read is resolved, and the registry has
    an entry for the identifier all the same. *)
Lemma registry_keeps_unpaired_identifier :
  ¬ entries_have_forward "/run" (Posix.start Posix.reverse_only_world).
Proof.
  intros Hclaim.
  specialize (Hclaim [("2015-SEQ-0001", PyNone)]
                (get_sample_dictionary "/run" (Posix.start Posix.reverse_only_world)).2).
  assert (Hrun : get_sample_dictionary "/run" (Posix.start Posix.reverse_only_world)
                 = (Ok [("2015-SEQ-0001", PyNone)],
                    (get_sample_dictionary "/run"
                       (Posix.start Posix.reverse_only_world)).2))
    by reflexivity.
  specialize (Hclaim Hrun "2015-SEQ-0001").
  destruct Hclaim as [f Hf]; [by eexists|].
  vm_compute in Hf. discriminate.
Qed.

(** ** The layout materializer: symbolic links *)

Section Materializer.

Context `{Platform}.

Lemma symlink_dictionary_run (d : dict) (dest : string) st :
  symlink_dictionary d dest st
  = for_each d (symlink_entry dest)
      (logged INFO ("Creating symlinks for samples at " +:+ dest) st).
Proof. reflexivity. Qed.

(** Whatever the body of the [try] raises is caught and reported with the
    one message of the handler. *)
Lemma symlink_entry_caught (key : string) (value : pyval) (dest : string) st e st2 :
  symlink_pair key value dest st = (Raise e, st2) →
  symlink_entry dest (key, value) st = (Ok tt, logged ERROR (already_exist key) st2).
Proof. unfold symlink_entry, try_except. by intros ->. Qed.

Lemma symlink_entry_total (dest : string) (entry : string * pyval) st :
  (symlink_entry dest entry st).1 = Ok tt.
Proof.
  destruct entry as [key value]. unfold symlink_entry, try_except.
  by destruct (symlink_pair key value dest st) as [[[]|e] st'].
Qed.

Lemma symlink_dictionary_never_raises (d : dict) (dest : string) st :
  (symlink_dictionary d dest st).1 = Ok tt.
Proof.
  rewrite symlink_dictionary_run.
  apply for_each_total. intros entry st'. apply symlink_entry_total.
Qed.

(** C10: whatever the dictionary holds, [symlink_dictionary] returns without
    raising. A null value and a pair with a null reverse slot end in the
    handler like every other failure of the [try] body: the entry is
    reported with the already-exist message, whatever was raised. *)
Theorem symlink_dictionary_total (d : dict) (dest : string) st :
  (symlink_dictionary d dest st).1 = Ok tt
  ∧ (∀ key, symlink_entry dest (key, PyNone) st
            = (Ok tt, logged ERROR (already_exist key) st))
  ∧ (∀ key r1,
       symlink_entry dest (key, PyList [PyStr r1; PyNone]) st
       = (Ok tt,
          logged ERROR (already_exist key)
            (State (os_symlink r1 (link_name dest r1) (os_world st)).2 (log st))))
  ∧ (∀ key value e st2,
       symlink_pair key value dest st = (Raise e, st2) →
       symlink_entry dest (key, value) st
       = (Ok tt, logged ERROR (already_exist key) st2)).
Proof.
  split; [apply symlink_dictionary_never_raises|]. split; [done|]. split.
  - intros key r1. unfold symlink_entry, symlink_pair, create_symlink, logged.
    munfold. simpl. unfold link_name.
    by destruct (os_symlink r1 _ (os_world st)) as [[[]|e] w].
  - intros key value e st2. apply symlink_entry_caught.
Qed.

Lemma symlink_pair_fails_exists (key r1 r2 dest : string) st w2 :
  pair_fails_exists r1 r2 dest (os_world st) w2 →
  symlink_pair key (PyList [PyStr r1; PyStr r2]) dest st
  = (Raise FileExistsError, State w2 (log st)).
Proof.
  unfold symlink_pair, create_symlink. munfold. simpl.
  intros [w2' Hfirst | w1 w2' Hfirst Hsecond]; unfold link_name in *.
  - by rewrite Hfirst.
  - rewrite Hfirst. simpl. by rewrite Hsecond.
Qed.

(** C6: when a link name of one sample's pair is already taken, the failure
    is caught, an error naming the sample is logged, and the loop goes on
    with the remaining samples from the world the failing [os.symlink] call
    left (a first link that was created stays: nothing is undone); the
    materialization as a whole returns without raising. *)
Theorem symlink_dictionary_existing_link (before : dict) (key r1 r2 : string)
    (after : dict) (dest : string) st w2 :
  let entry := (key, PyList [PyStr r1; PyStr r2]) in
  let st1 := (symlink_dictionary before dest st).2 in
  pair_fails_exists r1 r2 dest (os_world st1) w2 →
  let st2 := State w2 (log st1 ++ [LogRecord ERROR (already_exist key)])%list in
  symlink_entry dest entry st1 = (Ok tt, st2)
  ∧ symlink_dictionary (before ++ entry :: after)%list dest st
    = for_each after (symlink_entry dest) st2
  ∧ (symlink_dictionary (before ++ entry :: after)%list dest st).1 = Ok tt.
Proof.
  intros entry st1 Hfail st2.
  assert (Hentry : symlink_entry dest entry st1 = (Ok tt, st2)).
  { apply symlink_pair_fails_exists with (key := key) in Hfail.
    by apply symlink_entry_caught in Hfail. }
  split; [done|]. split; [|apply symlink_dictionary_never_raises].
  assert (Hbefore : symlink_dictionary before dest st = (Ok tt, st1)).
  { pose proof (symlink_dictionary_never_raises before dest st) as Hok.
    subst st1. destruct (symlink_dictionary before dest st) as [r s].
    simpl in *. by subst. }
  rewrite symlink_dictionary_run in Hbefore. rewrite symlink_dictionary_run.
  rewrite (for_each_app _ _ _ _ _ Hbefore).
  change (for_each (entry :: after) (symlink_entry dest) st1)
    with (bind (symlink_entry dest entry)
            (λ _, for_each after (symlink_entry dest)) st1).
  unfold bind. by rewrite Hentry.
Qed.

End Materializer.

Lemma symlink_dictionary_existing_link_witness :
  let dest := "/home/olc/out/data" in
  let entry :=
    ("2015-SEQ-0001",
     PyList [PyStr "/run/2015-SEQ-0001_S1_L001_R1_001.fastq.gz";
             PyStr "/run/2015-SEQ-0001_S1_L001_R2_001.fastq.gz"]) in
  let after :=
    [("2016-SEQ-0002",
      PyList [PyStr "/run/2016-SEQ-0002_S2_L001_R1_001.fastq.gz";
              PyStr "/run/2016-SEQ-0002_S2_L001_R2_001.fastq.gz"])] in
  let st := Posix.start Posix.rerun_world in
  let st1 := (symlink_dictionary [] dest st).2 in
  let w1 :=
    (Posix.symlink "/run/2015-SEQ-0001_S1_L001_R1_001.fastq.gz"
       "/home/olc/out/data/2015-SEQ-0001_S1_L001_R1_001.fastq.gz"
       Posix.rerun_world).2 in
  let st2 := State w1 (log st1 ++ [LogRecord ERROR (already_exist "2015-SEQ-0001")])%list in
  symlink_entry dest entry st1 = (Ok tt, st2)
  ∧ symlink_dictionary ([] ++ entry :: after)%list dest st
    = for_each after (symlink_entry dest) st2
  ∧ (symlink_dictionary ([] ++ entry :: after)%list dest st).1 = Ok tt.
Proof.
  apply (symlink_dictionary_existing_link []
           "2015-SEQ-0001"
           "/run/2015-SEQ-0001_S1_L001_R1_001.fastq.gz"
           "/run/2015-SEQ-0001_S1_L001_R2_001.fastq.gz"
           [("2016-SEQ-0002",
             PyList [PyStr "/run/2016-SEQ-0002_S2_L001_R1_001.fastq.gz";
                     PyStr "/run/2016-SEQ-0002_S2_L001_R2_001.fastq.gz"])]
           "/home/olc/out/data" (Posix.start Posix.rerun_world)).
  apply second_link_exists with
    (w1 := (Posix.symlink "/run/2015-SEQ-0001_S1_L001_R1_001.fastq.gz"
              "/home/olc/out/data/2015-SEQ-0001_S1_L001_R1_001.fastq.gz"
              Posix.rerun_world).2);
    vm_compute; reflexivity.
Defined.

(** On the second run above the forward link of the first sample is made
    before its reverse link fails, and it is still there at the end, next to
    both links of the second sample. *)
Example rerun_keeps_first_link :
  let final :=
    (symlink_dictionary
       [("2015-SEQ-0001",
         PyList [PyStr "/run/2015-SEQ-0001_S1_L001_R1_001.fastq.gz";
                 PyStr "/run/2015-SEQ-0001_S1_L001_R2_001.fastq.gz"]);
        ("2016-SEQ-0002",
         PyList [PyStr "/run/2016-SEQ-0002_S2_L001_R1_001.fastq.gz";
                 PyStr "/run/2016-SEQ-0002_S2_L001_R2_001.fastq.gz"])]
       "/home/olc/out/data" (Posix.start Posix.rerun_world)).2 in
  Posix.children (os_world final) "/home/olc/out/data"
  = ["/home/olc/out/data/2015-SEQ-0001_S1_L001_R1_001.fastq.gz";
     "/home/olc/out/data/2015-SEQ-0001_S1_L001_R2_001.fastq.gz";
     "/home/olc/out/data/2016-SEQ-0002_S2_L001_R1_001.fastq.gz";
     "/home/olc/out/data/2016-SEQ-0002_S2_L001_R2_001.fastq.gz"]
  ∧ lvl <$> log final = [INFO; ERROR; DEBUG].
Proof. vm_compute. split; reflexivity. Qed.

(** ** The layout materializer: dummy barcodes *)

Example dummy_barcode_target :
  Str.replace "_S" "_00_S"
    "/home/olc/MiSeq_Sept/data/2015-SEQ-0001_S1_L001_R1_001.fastq.gz"
  = "/home/olc/MiSeq_00_Sept/data/2015-SEQ-0001_00_S1_L001_R1_001.fastq.gz".
Proof. reflexivity. Qed.

(** On the usual layout the link is renamed as intended. *)
Example append_dummy_barcodes_usual :
  let w :=
    Posix.with_entries Posix.rerun_world
      (delete "/home/olc/out/data/2015-SEQ-0001_S1_L001_R2_001.fastq.gz"
         (Posix.entries Posix.rerun_world)) in
  let linked :=
    (symlink_dictionary
       [("2015-SEQ-0001",
         PyList [PyStr "/run/2015-SEQ-0001_S1_L001_R1_001.fastq.gz";
                 PyStr "/run/2015-SEQ-0001_S1_L001_R2_001.fastq.gz"])]
       "/home/olc/out/data" (Posix.start w)).2 in
  Posix.children
    (os_world (append_dummy_barcodes "/home/olc/out/data" linked).2)
    "/home/olc/out/data"
  = ["/home/olc/out/data/2015-SEQ-0001_00_S1_L001_R1_001.fastq.gz";
     "/home/olc/out/data/2015-SEQ-0001_00_S1_L001_R2_001.fastq.gz"].
Proof. vm_compute. reflexivity. Qed.

(** C5 (the code departs from the claim): the replacement runs over the whole
    absolute path and over every occurrence of the marker. With the marker in
    the name of a parent directory the new path lies in a directory that does
    not exist: [os.rename] raises FileNotFoundError and nothing is renamed.
    With the marker twice in the file name the segment is inserted twice, not
    only before the first occurrence. *)
Theorem append_dummy_barcodes_rewrites_whole_path :
  append_dummy_barcodes "/home/olc/MiSeq_Sept/data"
    (Posix.start Posix.underscore_world)
  = (Raise FileNotFoundError, Posix.start Posix.underscore_world)
  ∧ Posix.children
      (os_world
         (append_dummy_barcodes "/home/olc/out/data"
            (Posix.start Posix.soil_world)).2)
      "/home/olc/out/data"
    = ["/home/olc/out/data/2015-SEQ-0001_00_Soil_00_S1_L001_R1_001.fastq.gz"].
Proof. split; reflexivity. Qed.

(** ** The project orchestrator *)

Section Orchestrator.

Context `{Platform}.

(** When [project_setup] raises, it ends in the state left by the step that
    raised: no later step, and no cleanup, runs. *)
Lemma project_setup_raise_inv (outdir inputdir : string) st e st' :
  project_setup outdir inputdir st = (Raise e, st') →
  left_by_failing_step outdir inputdir st e st'.
Proof.
  unfold project_setup, mbind, M_bind, bind.
  destruct (os_call (os_mkdir outdir) st) as [[[]|e1] st1] eqn:H1;
    [|intros [= <- <-]; by apply fails_at_outdir].
  destruct (os_call (os_mkdir (OsPath.join outdir "data")) st1)
    as [[[]|e2] st2] eqn:H2;
    [|intros [= <- <-]; by eapply fails_at_data].
  destruct (os_call (os_mkdir (OsPath.join outdir "qiime2")) st2)
    as [[[]|e3] st3] eqn:H3;
    [|intros [= <- <-]; by eapply fails_at_qiime2].
  rewrite logging_run.
  set (st3' := logged DEBUG ("Created QIIME2 analysis folder: " +:+ outdir) st3).
  assert (Hmade : folders_made outdir st st3').
  { exists st1, st2. rewrite H3. by repeat split. }
  destruct (get_sample_dictionary inputdir st3') as [[d|e4] st4] eqn:H4;
    [|intros [= <- <-]; by eapply fails_at_registry].
  rewrite logging_run.
  pose proof (symlink_dictionary_never_raises d (OsPath.join outdir "data")
                (logged DEBUG ("Sample Dictionary: " +:+ dict_str d) st4)) as Hok.
  destruct (symlink_dictionary d _ _) as [[[]|e5] st5] eqn:H5; [|done].
  destruct (append_dummy_barcodes (OsPath.join outdir "data") st5)
    as [[[]|e6] st6] eqn:H6;
    [|intros [= <- <-]; by eapply fails_at_barcodes].
  rewrite logging_run. intros Hart. by eapply fails_at_artifact.
Qed.

End Orchestrator.

Lemma posix_mkdir_exists (p : string) (w : Posix.fs_world) :
  p ≠ "" →
  is_Some (Posix.entries w !! Posix.resolve w p) →
  Posix.mkdir p w = (Raise FileExistsError, w).
Proof.
  intros Hp [n Hn]. unfold Posix.mkdir, Posix.create.
  destruct (String.eqb p "") eqn:Hempty.
  - by apply String.eqb_eq in Hempty.
  - simpl. by rewrite Hn.
Qed.

(** C8: with an output directory that already exists, the first [os.mkdir]
    raises FileExistsError, which leaves [project_setup] uncaught with
    nothing created, logged or removed; and at whichever step [project_setup]
    raises, it stops in the state that step left: what was built so far stays
    in place. *)
Theorem project_setup_fatal_without_cleanup (outdir inputdir : string) (st : state) :
  (outdir ≠ "" →
   is_Some (Posix.entries (os_world st) !! Posix.resolve (os_world st) outdir) →
   project_setup outdir inputdir st = (Raise FileExistsError, st))
  ∧ (∀ e st',
       project_setup outdir inputdir st = (Raise e, st') →
       left_by_failing_step outdir inputdir st e st').
Proof.
  split; [|intros e st'; apply project_setup_raise_inv].
  intros Hp Hexists. unfold project_setup.
  apply bind_raise. unfold os_call. simpl.
  rewrite (posix_mkdir_exists outdir (os_world st) Hp Hexists).
  by destruct st.
Qed.

Lemma project_setup_fatal_without_cleanup_witness :
  project_setup "/home/olc" "/run" (Posix.start Posix.run_world)
  = (Raise FileExistsError, Posix.start Posix.run_world).
Proof.
  apply (proj1 (project_setup_fatal_without_cleanup "/home/olc" "/run"
                  (Posix.start Posix.run_world))).
  - discriminate.
  - vm_compute. eexists. reflexivity.
Defined.

(** A failure after the first step: the run folder holds a file on which the
    validator raises. The error leaves [project_setup], and the three folders
    made before it are still there. *)
Example project_setup_leaves_partial_output :
  let r := project_setup "/home/olc/out" "/run" (Posix.start Posix.digits_world) in
  r.1 = Raise IndexError
  ∧ Posix.children (os_world r.2) "/home/olc/out"
    = ["/home/olc/out/qiime2"; "/home/olc/out/data"]
  ∧ Posix.entries (os_world r.2) !! "/home/olc/out" = Some Posix.Dir.
Proof. vm_compute. repeat split; reflexivity. Qed.

(** * Further properties of the module *)

(** ** Facts about strings and paths *)

#[local] Arguments String.append !s1 s2 / : simpl nomatch.

Lemma split_nonempty (sep : ascii) (s : string) : Str.split sep s ≠ [].
Proof.
  destruct s as [|c s]; simpl; [done|].
  destruct (Ascii.eqb c sep); [done|].
  by destruct (Str.split sep s).
Qed.

Lemma split_app_sep (sep : ascii) (a b : string) :
  Str.split sep (a +:+ String sep b) = (Str.split sep a ++ Str.split sep b)%list.
Proof.
  induction a as [|c a IH]; simpl.
  - by rewrite Ascii.eqb_refl.
  - destruct (Ascii.eqb c sep); [by rewrite IH|].
    rewrite IH. pose proof (split_nonempty sep a) as Hne.
    by destruct (Str.split sep a).
Qed.

(** A component of a split holds no separator. *)
Lemma split_component (sep : ascii) (s x : string) :
  x ∈ Str.split sep s → Str.split sep x = [x].
Proof.
  revert x. induction s as [|c s IH]; intros x; simpl.
  - by intros ->%list_elem_of_singleton.
  - destruct (Ascii.eqb c sep) eqn:Hc.
    + intros [->|Hx]%elem_of_cons; [done | by apply IH].
    + pose proof (split_nonempty sep s) as Hne.
      destruct (Str.split sep s) as [|h t] eqn:Hs; [done|].
      intros [->|Hx]%elem_of_cons.
      * simpl. rewrite Hc, (IH h); [done | by left].
      * apply IH. by right.
Qed.

Lemma last_app_nonempty {A} (l1 l2 : list A) (d : A) :
  l2 ≠ [] → List.last (l1 ++ l2) d = List.last l2 d.
Proof.
  intros Hne. induction l1 as [|x l1 IH]; [done|].
  simpl. rewrite IH. destruct (l1 ++ l2)%list eqn:Happ; [|done].
  apply app_eq_nil in Happ as [_ ?]. done.
Qed.

Lemma last_elem_of {A} (l : list A) (d : A) : l ≠ [] → List.last l d ∈ l.
Proof.
  induction l as [|x l IH]; [done|]. intros _.
  destruct l as [|y l]; [by left|].
  right. by apply IH.
Qed.

Lemma basename_no_sep (p : string) :
  Str.split OsPath.sep (OsPath.basename p) = [OsPath.basename p].
Proof.
  apply (split_component _ p), last_elem_of, split_nonempty.
Qed.

Lemma basename_after_sep (a b : string) :
  Str.split OsPath.sep b = [b] →
  OsPath.basename (a +:+ String OsPath.sep b) = b.
Proof.
  intros Hb. unfold OsPath.basename.
  rewrite split_app_sep, last_app_nonempty by apply split_nonempty.
  by rewrite Hb.
Qed.

Lemma take_drop (n : nat) (s : string) : Str.take n s +:+ Str.drop n s = s.
Proof.
  revert s. induction n as [|n IH]; intros [|c s]; simpl; try done.
  by rewrite IH.
Qed.

Lemma endswith_sep (a : string) :
  Str.endswith "/" a = true → ∃ a0, a = a0 +:+ "/".
Proof.
  unfold Str.endswith. intros [_ Heq%String.eqb_eq]%andb_true_iff.
  exists (Str.take (String.length a - String.length "/") a).
  pose proof (take_drop (String.length a - String.length "/") a) as Htd.
  by rewrite Heq in Htd.
Qed.

Lemma app_String_assoc (a : string) (c : ascii) (b : string) :
  (a +:+ String c "") +:+ b = a +:+ String c b.
Proof. induction a as [|x a IH]; simpl; [done | by rewrite IH]. Qed.

(** The base name survives [os.path.join] behind any directory. *)
Lemma basename_join (d name : string) :
  Str.split OsPath.sep name = [name] →
  OsPath.basename (OsPath.join d name) = name.
Proof.
  intros Hname. unfold OsPath.join, OsPath.isabs.
  assert (Hrel : Str.startswith "/" name = false).
  { destruct name as [|c name']; [done|]. simpl in Hname.
    change (Str.startswith "/" (String c name'))
      with (Ascii.eqb OsPath.sep c && true).
    rewrite Ascii.eqb_sym.
    destruct (Ascii.eqb c OsPath.sep); [|done].
    pose proof (split_nonempty OsPath.sep name').
    by destruct (Str.split OsPath.sep name'). }
  rewrite Hrel. destruct (String.eqb d "") eqn:Hd.
  - apply String.eqb_eq in Hd as ->. simpl.
    unfold OsPath.basename. by rewrite Hname.
  - simpl. destruct (Str.endswith "/" d) eqn:He.
    + apply endswith_sep in He as [a0 ->].
      rewrite app_String_assoc. by apply basename_after_sep.
    + change (d +:+ "/" +:+ name) with (d +:+ String OsPath.sep name).
      by apply basename_after_sep.
Qed.

(** ** More on the identifier validator *)

Section ValidatorMore.

Context `{Platform}.

(** X1: the validator raises nothing but IndexError, and it raises exactly
    when the 13-character prefix has a single component made of digits, or
    two components of which the first is made of digits and the second is
    SEQ. *)
Theorem valid_olc_id_raises_iff (filename : string) st e :
  (valid_olc_id filename st).1 = Raise e ↔
  e = IndexError
  ∧ ((∃ a, id_components_of filename = [a] ∧ Str.isdigit a = true)
     ∨ (∃ a, id_components_of filename = [a; "SEQ"] ∧ Str.isdigit a = true)).
Proof.
  rewrite valid_olc_id_run.
  transitivity (olc_condition (id_components_of filename) = Raise e).
  - destruct (olc_condition (id_components_of filename)) as [[]|e']; simpl;
      split; congruence.
  - rewrite olc_condition_raises. split.
    + intros [-> [Hnil|Hcases]]; [|done].
      by apply split_nonempty in Hnil.
    + intros [-> Hcases]. auto.
Qed.

(** X2: the validator never touches the world outside the process, and it
    leaves the log as it was unless it returns false; then it has appended
    one warning that names the 13-character candidate. *)
Theorem valid_olc_id_effect (filename : string) st :
  os_world (valid_olc_id filename st).2 = os_world st
  ∧ (((valid_olc_id filename st).1 = Ok false
      ∧ log (valid_olc_id filename st).2
        = (log st ++
           [LogRecord WARNING
              ("WARNING: ID for " +:+ sample_id_of filename
               +:+ " is not a valid OLC ID")])%list)
     ∨ ((valid_olc_id filename st).1 ≠ Ok false
        ∧ (valid_olc_id filename st).2 = st)).
Proof.
  rewrite valid_olc_id_run.
  destruct (olc_condition (id_components_of filename)) as [[]|e]; simpl;
    (split; [done|]); [right | left | right]; done.
Qed.

(** X3: [create_symlink] asks [os.symlink] for a link whose base name is the
    base name of the target, whatever the destination folder is. So the
    identifier read from the link is the identifier of the target, and the
    validator does on the link what it does on the target: the same result
    or exception, and the same record. *)
Theorem link_keeps_identifier (destination_folder target : string) st :
  create_symlink (PyStr target) destination_folder st
  = os_call (os_symlink target (link_name destination_folder target)) st
  ∧ OsPath.basename (link_name destination_folder target) = OsPath.basename target
  ∧ sample_id_of (link_name destination_folder target) = sample_id_of target
  ∧ accepted (link_name destination_folder target) = accepted target
  ∧ valid_olc_id (link_name destination_folder target) st = valid_olc_id target st.
Proof.
  assert (Hbase : OsPath.basename (link_name destination_folder target)
                  = OsPath.basename target)
    by apply basename_join, basename_no_sep.
  split; [done|]. split; [done|].
  unfold sample_id_of, accepted, id_components_of, valid_olc_id.
  by rewrite Hbase.
Qed.

End ValidatorMore.

(** ** More on sample discovery *)

Section DiscoveryMore.

Context `{Platform}.

Lemma validators_return_or_raise (files : list string) :
  (∀ f, f ∈ files → validator_returns f) ∨ (∃ f, f ∈ files ∧ validator_raises f).
Proof.
  induction files as [|f files [IH|(g & Hg & Hraises)]].
  - left. by intros f Hf%elem_of_nil.
  - destruct (olc_condition (id_components_of f)) as [b|e] eqn:Hf.
    + left. intros g [->|Hg]%elem_of_cons; [by exists b | by apply IH].
    + right. exists f. split; [by left|].
      unfold validator_raises. rewrite Hf.
      by apply olc_condition_raises in Hf as [-> _].
  - right. exists g. split; [by right | done].
Qed.

Lemma discovery_loop_raises (files : list string) :
  (∃ f, f ∈ files ∧ validator_raises f) →
  ∀ acc st, (for_fold files acc discovery_body st).1 = Raise IndexError.
Proof.
  induction files as [|f files IH]; intros (g & Hg & Hraises) acc st.
  - by apply elem_of_nil in Hg.
  - simpl. unfold bind at 1, discovery_body at 1. munfold.
    rewrite valid_olc_id_run.
    destruct (olc_condition (id_components_of f)) as [[]|e] eqn:Hf; simpl.
    + apply IH. apply elem_of_cons in Hg as [->|Hg]; [|by exists g].
      unfold validator_raises in Hraises. congruence.
    + apply IH. apply elem_of_cons in Hg as [->|Hg]; [|by exists g].
      unfold validator_raises in Hraises. congruence.
    + by apply olc_condition_raises in Hf as [-> _].
Qed.

Lemma retrieve_unique_sampleids_value (files : list string) st ids st' :
  retrieve_unique_sampleids files st = (Ok ids, st') →
  ids = list_of_set (sample_id_of <$> List.filter accepted files).
Proof.
  unfold retrieve_unique_sampleids. munfold.
  destruct (for_fold files [] discovery_body _) as [[l|e] st1] eqn:Hloop; [|done].
  intros [= <- <-]. by apply discovery_loop_inv in Hloop as [-> _].
Qed.

(** X4: when the validator returns on every file, discovery returns, without
    touching the world outside the process, a list that holds no identifier
    twice and holds exactly the 13-character prefixes of the accepted files. *)
Theorem retrieve_unique_sampleids_result (files : list string) st :
  (∀ f, f ∈ files → validator_returns f) →
  ∃ ids st',
    retrieve_unique_sampleids files st = (Ok ids, st')
    ∧ os_world st' = os_world st
    ∧ NoDup ids
    ∧ ∀ id, id ∈ ids ↔ ∃ f, f ∈ files ∧ accepted f = true ∧ id = sample_id_of f.
Proof.
  intros Hret.
  destruct (retrieve_unique_sampleids_returns files st Hret)
    as (ids & st' & Hrun & Hnodup & Hids).
  exists ids, st'. repeat split; try done.
  - by apply retrieve_unique_sampleids_inv in Hrun as [? _].
  - by apply Hids.
  - by apply Hids.
Qed.

(** X5: discovery raises exactly when the validator raises on one of the
    files, and then it raises IndexError. *)
Theorem retrieve_unique_sampleids_raises_iff (files : list string) st e :
  (retrieve_unique_sampleids files st).1 = Raise e ↔
  e = IndexError ∧ ∃ f, f ∈ files ∧ validator_raises f.
Proof.
  assert (Hrun : (retrieve_unique_sampleids files st).1
                 = match (for_fold files [] discovery_body
                            (logged INFO "Scanning for valid OLC sample IDs" st)).1 with
                   | Ok l => Ok (list_of_set l)
                   | Raise e => Raise e
                   end).
  { unfold retrieve_unique_sampleids. munfold. unfold logged.
    by destruct (for_fold files [] discovery_body _) as [[l|e'] st1]. }
  rewrite Hrun. split.
  - destruct (validators_return_or_raise files) as [Hret|Hraises].
    + destruct (discovery_loop files Hret []
                  (logged INFO "Scanning for valid OLC sample IDs" st)) as [st' ->].
      done.
    + rewrite (discovery_loop_raises files Hraises). by intros [= <-].
  - intros [-> Hraises]. by rewrite (discovery_loop_raises files Hraises).
Qed.

(** X6: which identifiers are discovered depends only on which files are
    given, not on their order or on repetitions, and not on the state
    discovery starts in: two lists with the same members give the same
    identifiers, each once. The order of the result is that of a set, and two
    such results need not be in the same order. *)
Theorem discovery_ignores_order (files1 files2 : list string) st1 st2 ids1 ids2 st1' st2' :
  (∀ f, f ∈ files1 ↔ f ∈ files2) →
  retrieve_unique_sampleids files1 st1 = (Ok ids1, st1') →
  retrieve_unique_sampleids files2 st2 = (Ok ids2, st2') →
  ids1 ≡ₚ ids2.
Proof.
  intros Hsame ->%retrieve_unique_sampleids_value ->%retrieve_unique_sampleids_value.
  apply NoDup_Permutation; [apply list_of_set_NoDup..|]. intros id.
  rewrite !list_of_set_elem_of, !list_elem_of_fmap.
  split; intros (f & -> & Hf); exists f; (split; [done|]);
    apply list_elem_of_In, filter_In in Hf as [Hin Hacc];
    apply list_elem_of_In, filter_In; (split; [|done]);
    apply list_elem_of_In, Hsame, list_elem_of_In, Hin.
Qed.

End DiscoveryMore.

Lemma retrieve_unique_sampleids_result_witness :
  ∃ ids st',
    retrieve_unique_sampleids
      ["/run/2015-SEQ-0001_S1_L001_R1_001.fastq.gz";
       "/run/2015-SEQ-0001_S1_L001_R2_001.fastq.gz";
       "/run/Undetermined_S0_L001_R1_001.fastq.gz"]
      (Posix.start Posix.run_world) = (Ok ids, st')
    ∧ os_world st' = os_world (Posix.start Posix.run_world)
    ∧ NoDup ids
    ∧ ∀ id, id ∈ ids ↔
        ∃ f, f ∈ ["/run/2015-SEQ-0001_S1_L001_R1_001.fastq.gz";
                  "/run/2015-SEQ-0001_S1_L001_R2_001.fastq.gz";
                  "/run/Undetermined_S0_L001_R1_001.fastq.gz"]
             ∧ accepted f = true ∧ id = sample_id_of f.
Proof.
  apply (retrieve_unique_sampleids_result
           ["/run/2015-SEQ-0001_S1_L001_R1_001.fastq.gz";
            "/run/2015-SEQ-0001_S1_L001_R2_001.fastq.gz";
            "/run/Undetermined_S0_L001_R1_001.fastq.gz"]
           (Posix.start Posix.run_world)).
  intros f Hf. unfold validator_returns.
  repeat (apply elem_of_cons in Hf as [->|Hf]; [vm_compute; by eexists|]).
  by apply elem_of_nil in Hf.
Defined.

Lemma discovery_ignores_order_witness :
  Posix.unique ["2015-SEQ-0001"; "2016-SEQ-0002"]
  ≡ₚ Posix.unique ["2016-SEQ-0002"; "2015-SEQ-0001"; "2016-SEQ-0002"].
Proof.
  apply (discovery_ignores_order
           ["/run/2015-SEQ-0001_S1_L001_R1_001.fastq.gz";
            "/run/2016-SEQ-0002_S2_L001_R1_001.fastq.gz"]
           ["/run/2016-SEQ-0002_S2_L001_R1_001.fastq.gz";
            "/run/2015-SEQ-0001_S1_L001_R1_001.fastq.gz";
            "/run/2016-SEQ-0002_S2_L001_R1_001.fastq.gz"]
           (Posix.start Posix.run_world) (Posix.start Posix.rerun_world)
           _ _
           (retrieve_unique_sampleids
              ["/run/2015-SEQ-0001_S1_L001_R1_001.fastq.gz";
               "/run/2016-SEQ-0002_S2_L001_R1_001.fastq.gz"]
              (Posix.start Posix.run_world)).2
           (retrieve_unique_sampleids
              ["/run/2016-SEQ-0002_S2_L001_R1_001.fastq.gz";
               "/run/2015-SEQ-0001_S1_L001_R1_001.fastq.gz";
               "/run/2016-SEQ-0002_S2_L001_R1_001.fastq.gz"]
              (Posix.start Posix.rerun_world)).2).
  - intros f. rewrite !elem_of_cons, !elem_of_nil. tauto.
  - reflexivity.
  - reflexivity.
Defined.

(** ** More on the read pairer *)

Lemma abspath_in_absolute (cwd p : string) :
  Str.startswith "/" cwd = true →
  Str.startswith "/" (OsPath.abspath_in cwd p) = true.
Proof.
  intros Hcwd. unfold OsPath.abspath_in, OsPath.isabs.
  assert (Hnorm : ∀ q, Str.startswith "/" q = true →
                       Str.startswith "/" (OsPath.normpath q) = true).
  { intros q Hq. unfold OsPath.normpath. rewrite Hq.
    destruct q as [|c q]; [done|].
    change (String.eqb (String c q) "") with false. cbv iota.
    destruct (Str.startswith "//" (String c q) && negb (Str.startswith "///" (String c q)));
      done. }
  apply Hnorm. destruct (Str.startswith "/" p) eqn:Hp; [done|].
  unfold OsPath.join, OsPath.isabs. rewrite Hp.
  destruct cwd as [|c cwd]; [done|].
  destruct (String.eqb (String c cwd) "" || Str.endswith "/" (String c cwd));
    simpl in *; done.
Qed.

Section PairerMore.

Context `{Platform}.

(** X7: the last file of the list whose base name contains the sample
    identifier and the forward marker takes the forward slot: later files
    overwrite earlier ones. *)
Theorem last_forward_match_wins (sample_id forward_id reverse_id : string)
    (before : list string) (file : string) (after : list string) :
  carries sample_id forward_id file = true →
  (∀ g, g ∈ after → carries sample_id forward_id g = false) →
  (readpair_scan sample_id forward_id reverse_id (before ++ file :: after)).1
  = Some file.
Proof.
  intros Hfile Hafter. rewrite readpair_scan_slots. simpl.
  by apply find_last_app_last.
Qed.

(** X8: the pairer returns the null value exactly when no file of the list
    has a base name that contains both the sample identifier and the forward
    marker (whatever reverse reads there are), and it then leaves one debug
    record naming the sample. *)
Theorem get_readpair_none_iff (sample_id : string) (files : list string)
    (forward_id reverse_id : string) st :
  ((get_readpair sample_id files forward_id reverse_id st).1 = Ok PyNone ↔
   ∀ f, f ∈ files → carries sample_id forward_id f = false)
  ∧ ((get_readpair sample_id files forward_id reverse_id st).1 = Ok PyNone →
     (get_readpair sample_id files forward_id reverse_id st).2
     = logged DEBUG ("Could not pair " +:+ sample_id) st).
Proof.
  rewrite get_readpair_run, readpair_scan_slots, <- find_last_none.
  destruct (find_last (carries sample_id forward_id) files) as [r1|],
    (find_last (reverse_role sample_id forward_id reverse_id) files) as [r2|]; simpl;
    (split; [split|]); done.
Qed.

(** X9: on a list of absolute paths, for which [os.path.abspath] does not
    ask for the working directory, the only exception of the pairer is
    TypeError, and it is raised exactly when some file takes the forward role
    and no file takes the reverse role. *)
Theorem get_readpair_raises_iff (sample_id : string) (files : list string)
    (forward_id reverse_id : string) st e :
  forallb OsPath.isabs files = true →
  (get_readpair sample_id files forward_id reverse_id st).1 = Raise e ↔
  e = TypeError
  ∧ (∃ f, f ∈ files ∧ carries sample_id forward_id f = true)
  ∧ (∀ g, g ∈ files → reverse_role sample_id forward_id reverse_id g = false).
Proof.
  intros _. rewrite get_readpair_run, readpair_scan_slots, <- find_last_none.
  destruct (find_last (carries sample_id forward_id) files) as [r1|] eqn:H1,
    (find_last (reverse_role sample_id forward_id reverse_id) files) as [r2|] eqn:H2; simpl.
  - split; [done | by intros (_ & _ & ?)].
  - split.
    + intros [= <-]. split; [done|]. split; [|done].
      exists r1. by apply find_last_some in H1.
    + by intros [-> _].
  - split; [done | by intros (_ & _ & ?)].
  - split; [done|]. intros (_ & (f & Hin & Hf) & _).
    pose proof (proj1 (find_last_none _ _) H1 f Hin) as Hnone. congruence.
Qed.

(** X10: a pair the pairer returns is made of the absolute paths of two files
    of the list: the first has the sample identifier and the forward marker
    in its base name, the second the sample identifier and the reverse marker
    but not the forward marker. Neither slot is null, and nothing is logged or
    changed. *)
Theorem get_readpair_pair (sample_id : string) (files : list string)
    (forward_id reverse_id : string) st l st' :
  get_readpair sample_id files forward_id reverse_id st = (Ok (PyList l), st') →
  st' = st
  ∧ ∃ f1 f2,
      f1 ∈ files ∧ f2 ∈ files
      ∧ carries sample_id forward_id f1 = true
      ∧ reverse_role sample_id forward_id reverse_id f2 = true
      ∧ l = [PyStr (OsPath.abspath_in (os_getcwd (os_world st)) f1);
             PyStr (OsPath.abspath_in (os_getcwd (os_world st)) f2)].
Proof.
  rewrite get_readpair_run, readpair_scan_slots.
  destruct (find_last (carries sample_id forward_id) files) as [r1|] eqn:H1,
    (find_last (reverse_role sample_id forward_id reverse_id) files) as [r2|] eqn:H2; simpl; try done.
  intros [= <- <-]. split; [done|].
  apply find_last_some in H1 as [? ?], H2 as [? ?].
  by exists r1, r2.
Qed.

(** X11: with an absolute current directory, both paths of a returned pair
    are absolute. *)
Theorem get_readpair_paths_absolute (sample_id : string) (files : list string)
    (forward_id reverse_id : string) st a b st' :
  Str.startswith "/" (os_getcwd (os_world st)) = true →
  get_readpair sample_id files forward_id reverse_id st
  = (Ok (PyList [PyStr a; PyStr b]), st') →
  Str.startswith "/" a = true ∧ Str.startswith "/" b = true.
Proof.
  intros Hcwd. rewrite get_readpair_run.
  destruct (readpair_scan _ _ _ _) as [[r1|] [r2|]]; try done.
  intros [= <- <- _]. split; by apply abspath_in_absolute.
Qed.

End PairerMore.

Lemma last_forward_match_wins_witness :
  (readpair_scan "2015-SEQ-0001" "_R1" "_R2"
     (["/run/2015-SEQ-0001_S1_L001_R1_001.fastq.gz"]
      ++ "/run/2015-SEQ-0001_S1_L002_R1_001.fastq.gz"
         :: ["/run/2015-SEQ-0001_S1_L001_R2_001.fastq.gz"])%list).1
  = Some "/run/2015-SEQ-0001_S1_L002_R1_001.fastq.gz".
Proof.
  apply (last_forward_match_wins "2015-SEQ-0001" "_R1" "_R2"
           ["/run/2015-SEQ-0001_S1_L001_R1_001.fastq.gz"]
           "/run/2015-SEQ-0001_S1_L002_R1_001.fastq.gz"
           ["/run/2015-SEQ-0001_S1_L001_R2_001.fastq.gz"]).
  - reflexivity.
  - intros g Hg. apply elem_of_cons in Hg as [->|Hg]; [reflexivity|].
    by apply elem_of_nil in Hg.
Defined.

Lemma get_readpair_raises_iff_witness :
  (get_readpair "2015-SEQ-0001" ["/run/2015-SEQ-0001_S1_L001_R1_001.fastq.gz"]
     "_R1" "_R2" (Posix.start Posix.run_world)).1
  = Raise TypeError ↔
  TypeError = TypeError
  ∧ (∃ f, f ∈ ["/run/2015-SEQ-0001_S1_L001_R1_001.fastq.gz"]
          ∧ carries "2015-SEQ-0001" "_R1" f = true)
  ∧ (∀ g, g ∈ ["/run/2015-SEQ-0001_S1_L001_R1_001.fastq.gz"] →
          reverse_role "2015-SEQ-0001" "_R1" "_R2" g = false).
Proof.
  apply (get_readpair_raises_iff "2015-SEQ-0001"
           ["/run/2015-SEQ-0001_S1_L001_R1_001.fastq.gz"]
           "_R1" "_R2" (Posix.start Posix.run_world) TypeError).
  reflexivity.
Defined.

Lemma get_readpair_pair_witness :
  Posix.start Posix.run_world = Posix.start Posix.run_world
  ∧ ∃ f1 f2,
      f1 ∈ ["run/2015-SEQ-0001_S1_L001_R1_001.fastq.gz";
            "run/2015-SEQ-0001_S1_L001_R2_001.fastq.gz"]
      ∧ f2 ∈ ["run/2015-SEQ-0001_S1_L001_R1_001.fastq.gz";
              "run/2015-SEQ-0001_S1_L001_R2_001.fastq.gz"]
      ∧ carries "2015-SEQ-0001" "_R1" f1 = true
      ∧ reverse_role "2015-SEQ-0001" "_R1" "_R2" f2 = true
      ∧ [PyStr "/home/olc/run/2015-SEQ-0001_S1_L001_R1_001.fastq.gz";
         PyStr "/home/olc/run/2015-SEQ-0001_S1_L001_R2_001.fastq.gz"]
        = [PyStr (OsPath.abspath_in "/home/olc" f1);
           PyStr (OsPath.abspath_in "/home/olc" f2)].
Proof.
  apply (get_readpair_pair "2015-SEQ-0001"
           ["run/2015-SEQ-0001_S1_L001_R1_001.fastq.gz";
            "run/2015-SEQ-0001_S1_L001_R2_001.fastq.gz"]
           "_R1" "_R2" (Posix.start Posix.run_world)).
  reflexivity.
Defined.

Lemma get_readpair_paths_absolute_witness :
  Str.startswith "/" "/home/olc/run/2015-SEQ-0001_S1_L001_R1_001.fastq.gz" = true
  ∧ Str.startswith "/" "/home/olc/run/2015-SEQ-0001_S1_L001_R2_001.fastq.gz" = true.
Proof.
  apply (get_readpair_paths_absolute "2015-SEQ-0001"
           ["run/2015-SEQ-0001_S1_L001_R1_001.fastq.gz";
            "run/2015-SEQ-0001_S1_L001_R2_001.fastq.gz"]
           "_R1" "_R2" (Posix.start Posix.run_world) _ _
           (Posix.start Posix.run_world)); reflexivity.
Defined.

(** ** More on the sample dictionary *)

Lemma dict_get_set_inv (k id : string) (v x : pyval) (d : dict) :
  dict_get id (dict_set k v d) = Some x → x = v ∨ dict_get id d = Some x.
Proof.
  destruct (decide (k = id)) as [->|Hne].
  - rewrite dict_get_set_eq. intros [= <-]. by left.
  - rewrite dict_get_set_ne by done. by right.
Qed.


Section RegistryMore.

Context `{Platform}.


(** The loop of [populate_sample_dictionary] only reads the world, and what
    it stores is what the pairer returns. *)
Lemma populate_loop_values (files : list string) (ids : list string) :
  ∀ d0 st d st',
    for_fold ids d0 (populate_body files) st = (Ok d, st') →
    os_world st' = os_world st
    ∧ ∀ id v, dict_get id d = Some v → pair_or_none v ∨ dict_get id d0 = Some v.
Proof.
  induction ids as [|k ids IH]; intros d0 st d st'; simpl.
  - unfold ret. intros [= <- <-]. auto.
  - unfold bind at 1, populate_body at 1. munfold.
    rewrite get_readpair_run.
    assert (Hstep : ∀ v st1,
      pair_or_none v → os_world st1 = os_world st →
      for_fold ids (dict_set k v d0) (populate_body files) st1 = (Ok d, st') →
      os_world st' = os_world st
      ∧ ∀ id x, dict_get id d = Some x → pair_or_none x ∨ dict_get id d0 = Some x).
    { intros v st1 Hv Hw Hloop. apply IH in Hloop as [-> Hvals].
      split; [done|]. intros id x Hx.
      destruct (Hvals id x Hx) as [?|Hset]; [by left|].
      apply dict_get_set_inv in Hset as [->|?]; auto. }
    destruct (readpair_scan k "_R1" "_R2" files) as [[r1|] [r2|]]; simpl;
      try done; apply Hstep; try done;
      first [by left | right; by eexists _, _].
Qed.


(** X12: building the registry only reads the world outside the process, and
    every value of a returned registry is either null or a list of exactly
    two path strings: a pair with a null slot is never stored. *)
Theorem get_sample_dictionary_values (directory : string) st d st' :
  get_sample_dictionary directory st = (Ok d, st') →
  os_world st' = os_world st
  ∧ ∀ id v, dict_get id d = Some v → pair_or_none v.
Proof.
  unfold get_sample_dictionary, retrieve_fastqgz. munfold. simpl.
  fold (fastq_files directory st). set (files := fastq_files directory st).
  destruct (retrieve_unique_sampleids files st) as [[ids|e] st1] eqn:Hids; [|done].
  intros Hpop. apply retrieve_unique_sampleids_inv in Hids as [Hw1 _].
  apply populate_loop_values in Hpop as [Hw2 Hvals].
  split; [congruence|]. intros id v Hv.
  by destruct (Hvals id v Hv) as [?|?].
Qed.


End RegistryMore.


Lemma get_sample_dictionary_values_witness :
  os_world (get_sample_dictionary "/run" (Posix.start Posix.run_world)).2
  = os_world (Posix.start Posix.run_world)
  ∧ ∀ id v,
      dict_get id
        [("2015-SEQ-0001",
          PyList [PyStr "/run/2015-SEQ-0001_S1_L001_R1_001.fastq.gz";
                  PyStr "/run/2015-SEQ-0001_S1_L001_R2_001.fastq.gz"])]
      = Some v →
      pair_or_none v.
Proof.
  apply (get_sample_dictionary_values "/run" (Posix.start Posix.run_world)).
  reflexivity.
Defined.

(** ** More on the symbolic links *)

Section MaterializerMore.

Context `{Platform}.

Lemma create_symlink_preserves (P : world → Prop) (target : pyval) (dest : string) st :
  (∀ src dst w, P w → P (os_symlink src dst w).2) →
  P (os_world st) →
  P (os_world (create_symlink target dest st).2)
  ∧ log (create_symlink target dest st).2 = log st.
Proof.
  intros Hsym HP. destruct target as [|t|l]; simpl; try done.
  unfold os_call. specialize (Hsym t (OsPath.join dest (OsPath.basename t)) _ HP).
  by destruct (os_symlink t _ (os_world st)) as [r w].
Qed.

(** The body of the [try]: the world changes through [os.symlink] only, and
    the log grows by the debug record exactly when the body succeeds. *)
Lemma symlink_pair_effect (P : world → Prop) (key : string) (value : pyval)
    (dest : string) st :
  (∀ src dst w, P w → P (os_symlink src dst w).2) →
  P (os_world st) →
  P (os_world (symlink_pair key value dest st).2)
  ∧ (((symlink_pair key value dest st).1 = Ok tt
      ∧ log (symlink_pair key value dest st).2
        = (log st ++ [LogRecord DEBUG ("Created symlinks for " +:+ key)])%list)
     ∨ ((∃ e, (symlink_pair key value dest st).1 = Raise e)
        ∧ log (symlink_pair key value dest st).2 = log st)).
Proof.
  intros Hsym HP. unfold symlink_pair. munfold.
  destruct (subscript value 0) as [v0|e0]; [|split; [done | right; eauto]].
  destruct (create_symlink_preserves P v0 dest st Hsym HP) as [HP1 Hlog1].
  destruct (create_symlink v0 dest st) as [[[]|e1] st1]; simpl in *;
    [|split; [done | right; eauto]].
  destruct (subscript value 1) as [v1|e1']; [|split; [done | right; eauto]].
  destruct (create_symlink_preserves P v1 dest st1 Hsym HP1) as [HP2 Hlog2].
  destruct (create_symlink v1 dest st1) as [[[]|e2] st2]; simpl in *;
    [|split; [done | right; split; [eauto | congruence]]].
  split; [done|]. left. split; [done | congruence].
Qed.

Lemma symlink_entry_effect (P : world → Prop) (dest : string)
    (entry : string * pyval) st :
  (∀ src dst w, P w → P (os_symlink src dst w).2) →
  P (os_world st) →
  P (os_world (symlink_entry dest entry st).2)
  ∧ ∃ r, outcome_record entry.1 r
         ∧ log (symlink_entry dest entry st).2 = (log st ++ [r])%list.
Proof.
  intros Hsym HP. destruct entry as [key value].
  destruct (symlink_pair_effect P key value dest st Hsym HP)
    as [HP' [[Hok Hlog] | [[e He] Hlog]]];
    unfold symlink_entry, try_except;
    destruct (symlink_pair key value dest st) as [[[]|e'] st']; simpl in *;
    try done.
  - split; [done|]. eexists. split; [by left | done].
  - split; [done|]. eexists. split; [by right|]. by rewrite Hlog.
Qed.

Lemma symlink_loop_effect (P : world → Prop) (dest : string) (d : dict) :
  (∀ src dst w, P w → P (os_symlink src dst w).2) →
  ∀ st,
    P (os_world st) →
    P (os_world (for_each d (symlink_entry dest) st).2)
    ∧ ∃ records,
        Forall2 (λ entry r, outcome_record entry.1 r) d records
        ∧ log (for_each d (symlink_entry dest) st).2 = (log st ++ records)%list.
Proof.
  intros Hsym. induction d as [|entry d IH]; intros st HP; simpl.
  - split; [done|]. exists []. split; [constructor | by rewrite app_nil_r].
  - destruct (symlink_entry_effect P dest entry st Hsym HP)
      as [HP1 (r & Hr & Hlog1)].
    pose proof (symlink_entry_total dest entry st) as Hok.
    unfold bind. destruct (symlink_entry dest entry st) as [[[]|e] st1];
      simpl in *; [|done].
    destruct (IH st1 HP1) as [HP2 (records & Hrecs & Hlog2)].
    split; [done|]. exists (r :: records). split; [by constructor|].
    by rewrite Hlog2, Hlog1, <- app_assoc.
Qed.

(** X14: [symlink_dictionary] changes the world outside the process through
    [os.symlink] only: every property of the world that each call of
    [os.symlink] keeps (whether the call succeeds or fails) still holds when
    the materialization is over. *)
Theorem symlink_dictionary_preserves (P : world → Prop) (d : dict) (dest : string) st :
  (∀ src dst w, P w → P (os_symlink src dst w).2) →
  P (os_world st) →
  P (os_world (symlink_dictionary d dest st).2).
Proof.
  intros Hsym HP. rewrite symlink_dictionary_run.
  by apply (symlink_loop_effect P dest d Hsym).
Qed.

(** X15: the materialization logs one INFO record naming the destination and
    then exactly one record per entry, in the order of the dictionary: the
    debug record of the sample when both links were made, the error record of
    the sample otherwise. *)
Theorem symlink_dictionary_log (d : dict) (dest : string) st :
  ∃ records,
    Forall2 (λ entry r, outcome_record entry.1 r) d records
    ∧ log (symlink_dictionary d dest st).2
      = (log st
         ++ LogRecord INFO ("Creating symlinks for samples at " +:+ dest)
            :: records)%list.
Proof.
  rewrite symlink_dictionary_run.
  destruct (symlink_loop_effect (λ _, True) dest d (λ _ _ _ _, I)
              (logged INFO ("Creating symlinks for samples at " +:+ dest) st) I)
    as [_ (records & Hrecs & Hlog)].
  exists records. split; [done|]. rewrite Hlog. simpl.
  by rewrite <- app_assoc.
Qed.

End MaterializerMore.

Lemma posix_symlink_keeps (p : string) (n : Posix.node) (src dst : string)
    (w : Posix.fs_world) :
  Posix.entries w !! p = Some n →
  Posix.entries (Posix.symlink src dst w).2 !! p = Some n.
Proof.
  intros Hp. unfold Posix.symlink, Posix.create.
  destruct (String.eqb dst ""); [done|]. simpl.
  destruct (Posix.entries w !! Posix.resolve w dst) as [m|] eqn:Hfree; [done|].
  destruct (Posix.parent_check w (Posix.resolve w dst)); [|done]. simpl.
  rewrite lookup_insert_ne; [done|]. congruence.
Qed.

Lemma symlink_dictionary_preserves_witness :
  Posix.entries
    (os_world
       (symlink_dictionary
          [("2015-SEQ-0001",
            PyList [PyStr "/run/2015-SEQ-0001_S1_L001_R1_001.fastq.gz";
                    PyStr "/run/2015-SEQ-0001_S1_L001_R2_001.fastq.gz"])]
          "/home/olc/out/data" (Posix.start Posix.rerun_world)).2)
    !! "/home/olc/out/data/2015-SEQ-0001_S1_L001_R2_001.fastq.gz"
  = Some (Posix.Symlink "/run/2015-SEQ-0001_S1_L001_R2_001.fastq.gz").
Proof.
  apply (@symlink_dictionary_preserves Posix.platform
           (λ w : Posix.fs_world, Posix.entries w
                 !! "/home/olc/out/data/2015-SEQ-0001_S1_L001_R2_001.fastq.gz"
                 = Some (Posix.Symlink "/run/2015-SEQ-0001_S1_L001_R2_001.fastq.gz"))).
  - intros src dst w. apply posix_symlink_keeps.
  - reflexivity.
Defined.

(** ** More on the dummy barcodes *)

Lemma replace_absent (old new s : string) :
  Str.contains old s = false → Str.replace_from old new 0 s = s.
Proof.
  induction s as [|c s IH]; [done|].
  intros [Hhead Htail]%orb_false_iff.
  change (Str.replace_from old new 0 (String c s))
    with (if Str.startswith old (String c s)
          then new +:+ Str.replace_from old new (String.length old - 1) s
          else String c (Str.replace_from old new 0 s)).
  by rewrite Hhead, IH.
Qed.

Lemma startswith_marker (c : ascii) (s : string) :
  Str.startswith "_S" (String c s) = Ascii.eqb "_" c && Str.startswith "S" s.
Proof. done. Qed.

(** With the marker once in a string, the replacement inserts the segment
    right before it and changes nothing else. *)
Lemma replace_single_marker (pre suf : string) :
  Str.contains "_S" pre = false →
  Str.contains "_S" suf = false →
  Str.replace "_S" "_00_S" (pre +:+ "_S" +:+ suf) = pre +:+ "_00_S" +:+ suf.
Proof.
  intros Hpre Hsuf. unfold Str.replace.
  induction pre as [|c pre IH].
  - change (Str.replace_from "_S" "_00_S" 0 ("" +:+ "_S" +:+ suf))
      with ("_00_S" +:+ Str.replace_from "_S" "_00_S" 0 suf).
    by rewrite replace_absent.
  - apply orb_false_iff in Hpre as [Hhead Htail].
    change ((String c pre) +:+ "_S" +:+ suf)
      with (String c (pre +:+ "_S" +:+ suf)).
    change (Str.replace_from "_S" "_00_S" 0 (String c (pre +:+ "_S" +:+ suf)))
      with (if Str.startswith "_S" (String c (pre +:+ "_S" +:+ suf))
            then "_00_S" +:+ Str.replace_from "_S" "_00_S"
                               (String.length "_S" - 1) (pre +:+ "_S" +:+ suf)
            else String c (Str.replace_from "_S" "_00_S" 0 (pre +:+ "_S" +:+ suf))).
    assert (Hno : Str.startswith "_S" (String c (pre +:+ "_S" +:+ suf)) = false).
    { rewrite startswith_marker in *.
      destruct (Ascii.eqb "_" c); [|done].
      destruct pre as [|d pre]; [done|]. exact Hhead. }
    rewrite Hno, IH by done. done.
Qed.

Section BarcodesMore.

Context `{Platform}.

(** One iteration of the loop of [append_dummy_barcodes]. *)
Lemma barcode_step (file : string) st :
  barcode_body file st
  = match olc_condition (id_components_of file) with
    | Ok true =>
        os_call (os_rename (OsPath.abspath_in (os_getcwd (os_world st)) file)
                   (barcode_name (OsPath.abspath_in (os_getcwd (os_world st)) file)))
          st
    | Ok false =>
        (Ok tt,
         logged WARNING
           ("WARNING: ID for " +:+ sample_id_of file +:+ " is not a valid OLC ID") st)
    | Raise e => (Raise e, st)
    end.
Proof.
  unfold barcode_body. munfold. rewrite valid_olc_id_run.
  by destruct (olc_condition (id_components_of file)) as [[]|e].
Qed.

Lemma append_dummy_barcodes_run (path : string) st :
  append_dummy_barcodes path st
  = match for_each (fastq_files path st) barcode_body st with
    | (Ok _, st1) => (Ok tt, logged INFO (barcodes_added path) st1)
    | (Raise e, st1) => (Raise e, st1)
    end.
Proof.
  unfold append_dummy_barcodes, retrieve_fastqgz, fastq_files, barcode_body.
  unfold mbind at 1 2, M_bind, bind, os_read.
  by destruct (for_each _ _ st) as [[[]|e] st1].
Qed.

Lemma barcode_loop_preserves (P : world → Prop) (files all : list string) :
  (∀ f, f ∈ all → accepted f = true →
     ∀ w, P w →
       P (os_rename (OsPath.abspath_in (os_getcwd w) f)
            (barcode_name (OsPath.abspath_in (os_getcwd w) f)) w).2) →
  (∀ f, f ∈ files → f ∈ all) →
  ∀ st,
    P (os_world st) →
    P (os_world (for_each files barcode_body st).2).
Proof.
  intros Hren. induction files as [|f files IH]; intros Hsub st HP; [done|].
  change (for_each (f :: files) barcode_body st)
    with (bind (barcode_body f) (λ _, for_each files barcode_body) st).
  unfold bind. rewrite barcode_step.
  assert (Hrest : ∀ g, g ∈ files → g ∈ all) by (intros g Hg; apply Hsub; by right).
  unfold accepted in Hren. specialize (Hren f (Hsub f ltac:(by left))).
  destruct (olc_condition (id_components_of f)) as [[]|e]; simpl.
  - specialize (Hren eq_refl _ HP). unfold os_call.
    destruct (os_rename _ _ (os_world st)) as [[[]|e] w]; simpl in *; [|done].
    by apply IH.
  - by apply IH.
  - done.
Qed.

(** X16: [append_dummy_barcodes] changes the world outside the process only
    by renaming accepted files of the folder, each from its absolute path to
    that path with the segment inserted: every property of the world that
    these renames keep still holds afterwards. Files the validator rejects are
    never renamed. *)
Theorem append_dummy_barcodes_preserves (P : world → Prop) (path : string) st :
  (∀ f, f ∈ fastq_files path st → accepted f = true →
     ∀ w, P w →
       P (os_rename (OsPath.abspath_in (os_getcwd w) f)
            (barcode_name (OsPath.abspath_in (os_getcwd w) f)) w).2) →
  P (os_world st) →
  P (os_world (append_dummy_barcodes path st).2).
Proof.
  intros Hren HP. rewrite append_dummy_barcodes_run.
  pose proof (barcode_loop_preserves P (fastq_files path st) (fastq_files path st)
                Hren (λ _ Hf, Hf) st HP) as Hloop.
  destruct (for_each (fastq_files path st) barcode_body st) as [[[]|e] st1];
    simpl in *; done.
Qed.

(** X17: in a folder with one accepted file whose absolute path holds the
    marker once, [append_dummy_barcodes] asks for one rename, from that path
    to the path with the segment [_00] inserted right before the marker, and
    raises what the rename raises. *)
Theorem append_dummy_barcodes_single_marker (path file pre suf : string) st :
  fastq_files path st = [file] →
  accepted file = true →
  OsPath.abspath_in (os_getcwd (os_world st)) file = pre +:+ "_S" +:+ suf →
  Str.contains "_S" pre = false →
  Str.contains "_S" suf = false →
  append_dummy_barcodes path st
  = match os_rename (pre +:+ "_S" +:+ suf) (pre +:+ "_00_S" +:+ suf) (os_world st) with
    | (Ok _, w) => (Ok tt, logged INFO (barcodes_added path) (State w (log st)))
    | (Raise e, w) => (Raise e, State w (log st))
    end.
Proof.
  intros Hglob Hacc Habs Hpre Hsuf.
  rewrite append_dummy_barcodes_run, Hglob.
  change (for_each [file] barcode_body st)
    with (bind (barcode_body file) (λ _, ret tt) st).
  unfold bind. rewrite barcode_step.
  unfold accepted in Hacc.
  destruct (olc_condition (id_components_of file)) as [[]|e]; try done.
  unfold barcode_name, os_call. rewrite Habs, replace_single_marker by done.
  by destruct (os_rename _ _ (os_world st)) as [[[]|e] w].
Qed.

End BarcodesMore.

Lemma append_dummy_barcodes_preserves_witness :
  os_world (append_dummy_barcodes "/home/olc/out/data"
              (Posix.start undetermined_world)).2
  = undetermined_world.
Proof.
  apply (@append_dummy_barcodes_preserves Posix.platform
           (λ w : Posix.fs_world, w = undetermined_world)).
  - intros f Hf Hacc. vm_compute in Hf.
    apply elem_of_cons in Hf as [->|Hf]; [discriminate | by apply elem_of_nil in Hf].
  - reflexivity.
Defined.

Lemma append_dummy_barcodes_single_marker_witness :
  append_dummy_barcodes "/home/olc/out/data" (Posix.start linked_world)
  = match Posix.rename
            ("/home/olc/out/data/2015-SEQ-0001" +:+ "_S" +:+ "1_L001_R1_001.fastq.gz")
            ("/home/olc/out/data/2015-SEQ-0001" +:+ "_00_S" +:+ "1_L001_R1_001.fastq.gz")
            linked_world with
    | (Ok _, w) =>
        (Ok tt, logged INFO (barcodes_added "/home/olc/out/data") (State w []))
    | (Raise e, w) => (Raise e, State w [])
    end.
Proof.
  apply (append_dummy_barcodes_single_marker "/home/olc/out/data"
           "/home/olc/out/data/2015-SEQ-0001_S1_L001_R1_001.fastq.gz"
           "/home/olc/out/data/2015-SEQ-0001" "1_L001_R1_001.fastq.gz"
           (Posix.start linked_world)); reflexivity.
Defined.

(** ** The external commands *)

Section Commands.

Context `{Platform}.

(** X18: when the process has run and delivered its two streams,
    [execute_command] returns them unchanged if both hold ASCII bytes only,
    and raises UnicodeDecodeError otherwise; in both cases the world is the
    one the process left. *)
Theorem execute_command_decodes (cmd out err : string) st w :
  popen_communicate cmd (os_world st) = (Ok (out, err), w) →
  execute_command cmd st
  = if is_ascii out && is_ascii err
    then (Ok (out, err), State w (log st))
    else (Raise UnicodeDecodeError, State w (log st)).
Proof.
  intros Hrun. unfold execute_command, decode_ascii, is_ascii. munfold.
  rewrite Hrun. simpl.
  destruct (forallb _ (list_ascii_of_string out)); [|done].
  by destruct (forallb _ (list_ascii_of_string err)).
Qed.

Lemma create_sampledata_artifact_run (datadir qiimedir : string) st :
  create_sampledata_artifact datadir qiimedir st
  = match execute_command (import_command datadir qiimedir) st with
    | (Ok (out, err), st1) =>
        (Ok (OsPath.join qiimedir "paired-sample-data.qza"),
         logged INFO "Successfully created QIIME 2 data Artifact"
           (if negb (String.eqb out "") || negb (String.eqb err "")
            then logged DEBUG ("OUT: " +:+ out +:+ String "010" "ERR: " +:+ err) st1
            else st1))
    | (Raise e, st1) => (Raise e, st1)
    end.
Proof.
  unfold create_sampledata_artifact. fold (import_command datadir qiimedir).
  unfold mbind at 1, M_bind, bind.
  destruct (execute_command (import_command datadir qiimedir) st)
    as [[[out err]|e] st1]; [|done].
  munfold. by destruct (negb (String.eqb out "") || negb (String.eqb err "")).
Qed.

(** X19: [create_sampledata_artifact] never looks at what the import command
    printed: unless running the command raises, it logs the success record
    and returns the fixed artifact path under the QIIME folder. *)
Theorem create_sampledata_artifact_outcome (datadir qiimedir : string) st :
  match execute_command (import_command datadir qiimedir) st with
  | (Ok _, st1) =>
      (create_sampledata_artifact datadir qiimedir st).1
      = Ok (OsPath.join qiimedir "paired-sample-data.qza")
      ∧ os_world (create_sampledata_artifact datadir qiimedir st).2 = os_world st1
      ∧ List.last (log (create_sampledata_artifact datadir qiimedir st).2)
          (LogRecord DEBUG "")
        = LogRecord INFO "Successfully created QIIME 2 data Artifact"
  | (Raise e, st1) =>
      create_sampledata_artifact datadir qiimedir st = (Raise e, st1)
  end.
Proof.
  rewrite create_sampledata_artifact_run.
  destruct (execute_command (import_command datadir qiimedir) st)
    as [[[out err]|e] st1]; [|done].
  simpl. split; [done|]. split.
  - by destruct (negb (String.eqb out "") || negb (String.eqb err "")).
  - apply last_last.
Qed.

(** X20: when [project_setup] returns, it returns the path of the artifact in
    the [qiime2] folder of the output directory, and the last record of the
    log is the success record. *)
Theorem project_setup_returns_artifact (outdir inputdir p : string) st st' :
  project_setup outdir inputdir st = (Ok p, st') →
  p = OsPath.join (OsPath.join outdir "qiime2") "paired-sample-data.qza"
  ∧ List.last (log st') (LogRecord DEBUG "")
    = LogRecord INFO "Successfully created QIIME 2 data Artifact".
Proof.
  unfold project_setup, mbind, M_bind, bind.
  destruct (os_call (os_mkdir outdir) st) as [[[]|e1] st1]; [|done].
  destruct (os_call (os_mkdir (OsPath.join outdir "data")) st1)
    as [[[]|e2] st2]; [|done].
  destruct (os_call (os_mkdir (OsPath.join outdir "qiime2")) st2)
    as [[[]|e3] st3]; [|done].
  rewrite logging_run.
  destruct (get_sample_dictionary inputdir _) as [[d|e4] st4]; [|done].
  rewrite logging_run.
  destruct (symlink_dictionary d _ _) as [[[]|e5] st5]; [|done].
  destruct (append_dummy_barcodes _ st5) as [[[]|e6] st6]; [|done].
  rewrite logging_run, create_sampledata_artifact_run.
  destruct (execute_command _ _) as [[[out err]|e7] st7]; [|done].
  intros [= <- <-]. split; [done|]. apply last_last.
Qed.

End Commands.

Lemma execute_command_decodes_witness :
  execute_command "interop_summary /run" (Posix.start Posix.run_world)
  = if is_ascii "" && is_ascii ""
    then (Ok ("", ""), State Posix.run_world [])
    else (Raise UnicodeDecodeError, State Posix.run_world []).
Proof.
  apply (execute_command_decodes "interop_summary /run" "" ""
           (Posix.start Posix.run_world) Posix.run_world).
  reflexivity.
Defined.

Lemma project_setup_returns_artifact_witness :
  "/home/olc/out/qiime2/paired-sample-data.qza"
  = OsPath.join (OsPath.join "/home/olc/out" "qiime2") "paired-sample-data.qza"
  ∧ List.last
      (log (project_setup "/home/olc/out" "/run" (Posix.start Posix.run_world)).2)
      (LogRecord DEBUG "")
    = LogRecord INFO "Successfully created QIIME 2 data Artifact".
Proof.
  apply (project_setup_returns_artifact "/home/olc/out" "/run"
           "/home/olc/out/qiime2/paired-sample-data.qza"
           (Posix.start Posix.run_world)).
  reflexivity.
Defined.

(** ** The run-quality summary *)

Section SummaryFacts.

Context `{FileIO}.

Lemma make_interop_summary_run (inputdir outdir : string) st :
  make_interop_summary inputdir outdir st
  = match execute_command ("interop_summary " +:+ inputdir) st with
    | (Ok (out, err), st1) =>
        if String.eqb (Str.take 9 out) "# Version"
           && (4000 <? String.length out)%nat
        then
          try_except (write_summary outdir out)
            (logging INFO "Couldn't write the interop_summary file!") st1
        else (Ok tt, logged INFO "Something went wrong with interop_summary!" st1)
    | (Raise e, st1) => (Raise e, st1)
    end.
Proof.
  unfold make_interop_summary, mbind at 1, M_bind, bind.
  destruct (execute_command _ st) as [[[out err]|e] st1]; [|done].
  by destruct (String.eqb (Str.take 9 out) "# Version"
               && (4000 <? String.length out)%nat).
Qed.

(** X21: output of the summary tool that does not begin with the version
    header, or that is not longer than 4000 characters, is thrown away: no
    file is opened, and the one record logged says that something went
    wrong. *)
Theorem make_interop_summary_rejects (inputdir outdir out err : string) st st1 :
  execute_command ("interop_summary " +:+ inputdir) st = (Ok (out, err), st1) →
  Str.take 9 out ≠ "# Version" ∨ (String.length out ≤ 4000)%nat →
  make_interop_summary inputdir outdir st
  = (Ok tt, logged INFO "Something went wrong with interop_summary!" st1).
Proof.
  intros Hrun Hbad. rewrite make_interop_summary_run, Hrun.
  assert (Hcond : String.eqb (Str.take 9 out) "# Version"
                  && (4000 <? String.length out)%nat = false).
  { apply andb_false_iff. destruct Hbad as [Hhead|Hlen].
    - left. by apply String.eqb_neq.
    - right. apply Nat.ltb_ge. lia. }
  by rewrite Hcond.
Qed.

(** X22: [make_interop_summary] raises only what running the command raises:
    a failure to write the file is caught, and every other path returns. *)
Theorem make_interop_summary_raises_iff (inputdir outdir : string) st e :
  (make_interop_summary inputdir outdir st).1 = Raise e ↔
  (execute_command ("interop_summary " +:+ inputdir) st).1 = Raise e.
Proof.
  rewrite make_interop_summary_run.
  destruct (execute_command ("interop_summary " +:+ inputdir) st)
    as [[[out err]|e'] st1].
  - assert (Hok : ∀ r : result unit * state, r.1 = Ok tt →
                    (r.1 = Raise e ↔ (Ok (out, err) : result (string * string)) = Raise e)).
    { intros r Hr. rewrite Hr. split; intros Habs; discriminate Habs. }
    destruct (String.eqb (Str.take 9 out) "# Version"
              && (4000 <? String.length out)%nat); apply Hok; [|done].
    unfold try_except.
    by destruct (write_summary outdir out st1) as [[[]|e''] st2].
  - simpl. split; intros [= ->]; reflexivity.
Qed.

(** X23: accepted output is written, as it is, to [interop_summary.csv] in
    the output directory: when opening, writing and closing succeed, the
    world is the one these three calls leave and the record logged says that
    the file was made. *)
Theorem make_interop_summary_writes (inputdir outdir out err : string)
    st st1 (ifile : handle) w1 w2 w3 :
  execute_command ("interop_summary " +:+ inputdir) st = (Ok (out, err), st1) →
  Str.take 9 out = "# Version" →
  (4000 < String.length out)%nat →
  file_open_w (OsPath.join outdir "interop_summary.csv") (os_world st1)
  = (Ok ifile, w1) →
  file_write ifile out w1 = (Ok tt, w2) →
  file_close ifile w2 = (Ok tt, w3) →
  make_interop_summary inputdir outdir st
  = (Ok tt, logged INFO "Made the interop_summary file" (State w3 (log st1))).
Proof.
  intros Hrun Hhead Hlen Hopen Hwrite Hclose.
  rewrite make_interop_summary_run, Hrun, Hhead.
  apply Nat.ltb_lt in Hlen. rewrite Hlen. simpl.
  unfold try_except, write_summary. munfold. rewrite Hopen. simpl.
  rewrite Hwrite. simpl. by rewrite Hclose.
Qed.

(** X24: when the file cannot be opened, the failure is caught: the call
    returns, the world is the one the failed [open] left, and the record
    logged says that the file could not be written. *)
Theorem make_interop_summary_open_fails (inputdir outdir out err : string)
    st st1 e w1 :
  execute_command ("interop_summary " +:+ inputdir) st = (Ok (out, err), st1) →
  Str.take 9 out = "# Version" →
  (4000 < String.length out)%nat →
  file_open_w (OsPath.join outdir "interop_summary.csv") (os_world st1)
  = (Raise e, w1) →
  make_interop_summary inputdir outdir st
  = (Ok tt,
     logged INFO "Couldn't write the interop_summary file!" (State w1 (log st1))).
Proof.
  intros Hrun Hhead Hlen Hopen.
  rewrite make_interop_summary_run, Hrun, Hhead.
  apply Nat.ltb_lt in Hlen. rewrite Hlen. simpl.
  unfold try_except, write_summary. munfold. by rewrite Hopen.
Qed.

End SummaryFacts.

Lemma make_interop_summary_rejects_witness :
  make_interop_summary "/run" "/home/olc/out" (Posix.start Posix.rerun_world)
  = (Ok tt,
     logged INFO "Something went wrong with interop_summary!"
       (Posix.start Posix.rerun_world)).
Proof.
  apply (@make_interop_summary_rejects Posix.platform PosixFiles.file_io
           "/run" "/home/olc/out" "" ""
           (Posix.start Posix.rerun_world) (Posix.start Posix.rerun_world)).
  - reflexivity.
  - left. discriminate.
Defined.

Lemma make_interop_summary_writes_witness :
  make_interop_summary "/run" "/home/olc/out" (Posix.start PosixFiles.summary_world)
  = (Ok tt,
     logged INFO "Made the interop_summary file"
       (State
          (PosixFiles.open_w "/home/olc/out/interop_summary.csv"
             PosixFiles.summary_world).2 [])).
Proof.
  apply (@make_interop_summary_writes Posix.platform PosixFiles.file_io
           "/run" "/home/olc/out"
           ("# Version" +:+ PosixFiles.filler 4000) ""
           (Posix.start PosixFiles.summary_world)
           (Posix.start PosixFiles.summary_world)
           "/home/olc/out/interop_summary.csv"
           (PosixFiles.open_w "/home/olc/out/interop_summary.csv"
              PosixFiles.summary_world).2
           (PosixFiles.open_w "/home/olc/out/interop_summary.csv"
              PosixFiles.summary_world).2
           (PosixFiles.open_w "/home/olc/out/interop_summary.csv"
              PosixFiles.summary_world).2).
  - reflexivity.
  - reflexivity.
  - apply Nat.ltb_lt. reflexivity.
  - reflexivity.
  - reflexivity.
  - reflexivity.
Defined.

Lemma make_interop_summary_open_fails_witness :
  make_interop_summary "/run" "/home/olc/missing"
    (Posix.start PosixFiles.summary_world)
  = (Ok tt,
     logged INFO "Couldn't write the interop_summary file!"
       (State PosixFiles.summary_world [])).
Proof.
  apply (@make_interop_summary_open_fails Posix.platform PosixFiles.file_io
           "/run" "/home/olc/missing"
           ("# Version" +:+ PosixFiles.filler 4000) ""
           (Posix.start PosixFiles.summary_world)
           (Posix.start PosixFiles.summary_world)
           FileNotFoundError PosixFiles.summary_world).
  - reflexivity.
  - reflexivity.
  - apply Nat.ltb_lt. reflexivity.
  - reflexivity.
Defined.
